(** * sga-lti: the grading data model, the upload path builder, the zip
      export generator and the submission views

    A shallow embedding of [sga/models.py], [sga/backend/files.py] and
    [sga/views.py].  Python objects are records, the Django tables are
    lists of rows in insertion order, a raised exception is the left
    injection of a sum, and a view is a function from the database to an
    outcome and the database it leaves behind. *)

From Stdlib Require Import ZArith List String Ascii Bool Lia.
From Stdlib.Strings Require Import Byte.
From Stdlib Require Import Permutation.
From Stdlib Require Import DecimalString.
Import ListNotations.

#[local] Open Scope string_scope.
#[local] Open Scope list_scope.
#[local] Open Scope Z_scope.

(* ===================================================================== *)
(** ** Python values used by the code *)
(* ===================================================================== *)

Module Py.

(** The exceptions the modelled code can raise. *)
Inductive exn : Type :=
| DoesNotExist
| MultipleObjectsReturned
| AttributeError (attr : string)
| ValueError
| Http404
| PermissionDenied.

(** A computation that returns or raises. *)
Definition result (A : Type) : Type := (exn + A)%type.

Definition bytes : Type := list byte.

(** [str(n)] for an [int]. *)
Definition str_of_int (n : Z) : string := NilZero.string_of_int (Z.to_int n).

(** Truth value of an optional integer: [None] and [0] are false. *)
Definition truthy_int (v : option Z) : bool :=
  match v with
  | None => false
  | Some n => negb (n =? 0)
  end.

(** Truth value of an optional object: only [None] is false. *)
Definition truthy_obj {A : Type} (v : option A) : bool :=
  match v with
  | None => false
  | Some _ => true
  end.

(** [s.rfind(c)] for a one-character needle: the highest index holding
    [c], or [-1]. *)
Fixpoint rfind_from (c : ascii) (s : string) (i acc : Z) : Z :=
  match s with
  | EmptyString => acc
  | String d r => rfind_from c r (i + 1) (if Ascii.eqb d c then i else acc)
  end.

Definition rfind (c : ascii) (s : string) : Z := rfind_from c s 0 (-1).

(** [s[:n]] and [s[n:]] for [0 <= n]. *)
Definition slice_to (s : string) (n : Z) : string :=
  substring 0 (Z.to_nat n) s.

Definition slice_from (s : string) (n : Z) : string :=
  substring (Z.to_nat n) (String.length s - Z.to_nat n) s.

(** [s[i:i+1]]. *)
Definition char_at (s : string) (i : Z) : string :=
  substring (Z.to_nat i) 1 s.

End Py.

Import Py.

(* ===================================================================== *)
(** ** The model classes of sga/models.py, as rows *)
(* ===================================================================== *)

(** A stored file ([FieldFile]): its name and what [read()] returns. *)
Record FieldFile : Type := {
  file_name : string;
  file_content : bytes
}.

Record User : Type := {
  user_pk : Z;
  username : string
}.

Record Course : Type := {
  course_pk : Z;
  course_edx_id : string
}.

Record Grader : Type := {
  grader_pk : Z;
  max_students : Z;
  grader_user : User;
  grader_course : Course
}.

Record Student : Type := {
  student_pk : Z;
  student_grader : option Grader;
  student_user : User;
  student_course : Course
}.

Record Assignment : Type := {
  assignment_pk : Z;
  assignment_edx_id : string;
  assignment_name : string;
  due_date : option Z;
  grace_period : Z;
  assignment_course : Course
}.

Record Submission : Type := {
  pk : Z;
  created_on : Z;
  updated_on : Z;
  assignment : Assignment;
  student : User;
  graded_by : option User;
  description : option string;
  feedback : option string;
  grade : option Z;
  submitted_at : option Z;
  graded_at : option Z;
  submitted : bool;
  graded : bool;
  student_document : option FieldFile;
  grader_document : option FieldFile
}.

(** Model instances compare by primary key. *)
Definition user_eqb (u v : User) : bool := user_pk u =? user_pk v.
Definition course_eqb (c d : Course) : bool := course_pk c =? course_pk d.
Definition grader_eqb (g h : Grader) : bool := grader_pk g =? grader_pk h.
Definition assignment_eqb (a b : Assignment) : bool :=
  assignment_pk a =? assignment_pk b.

(** The tables.  [administrators] is the plain many-to-many relation of
    [Course]; [graders] and [students] are its two through tables. *)
Record Database : Type := {
  administrators : list (Course * User);
  graders : list Grader;
  students : list Student;
  assignments : list Assignment;
  submissions : list Submission
}.

(* ===================================================================== *)
(** ** sga/backend/files.py: upload paths *)
(* ===================================================================== *)

Module Files.

(** [os.path.splitext] of the POSIX flavour: the extension starts at the
    last dot of the last path component, unless that component has
    nothing but dots before it. *)
Fixpoint has_non_dot (n : nat) (p : string) (filenameIndex : Z) : bool :=
  match n with
  | O => false
  | S n' =>
      if negb (String.eqb (char_at p filenameIndex) ".") then true
      else has_non_dot n' p (filenameIndex + 1)
  end.

Definition splitext (p : string) : string * string :=
  let sepIndex := rfind "/" p in
  let dotIndex := rfind "." p in
  if (dotIndex >? sepIndex)
     && has_non_dot (Z.to_nat (dotIndex - (sepIndex + 1))) p (sepIndex + 1)
  then (slice_to p dotIndex, slice_from p dotIndex)
  else (p, "").

Section PathBuilder.

(** Modelled from the spec: [INVALID_S3_CHARACTERS_REGEX] of
    [sga/backend/constants.py], the configured pattern of the
    characters a storage key may not hold; it matches one character
    at a time. *)
Variable INVALID_S3_CHARACTERS_REGEX : ascii -> bool.

(** [re.sub(pattern, repl, s)] for a pattern that matches single
    characters and a replacement without a backslash, which [re.sub]
    inserts as it is (a backslash would make it a template): every match
    is replaced by [repl], left to right. *)
Fixpoint re_sub (repl : string) (s : string) : string :=
  match s with
  | EmptyString => EmptyString
  | String c r =>
      if INVALID_S3_CHARACTERS_REGEX c then (repl ++ re_sub repl r)%string
      else String c (re_sub repl r)
  end.

Definition convert_illegal_S3_chars (path : string) (replace_with : string)
  : string :=
  re_sub replace_with path.

(** The default of the keyword argument [replace_with]. *)
Definition replace_with_default : string := "_".

Definition student_submission_file_path (instance : Submission)
  (filename : string) : string :=
  let path :=
    (course_edx_id (assignment_course (assignment instance))
     ++ "/student-uploads/"
     ++ assignment_edx_id (assignment instance)
     ++ "/"
     ++ username (student instance)
     ++ "-"
     ++ assignment_name (assignment instance)
     ++ snd (splitext filename))%string in
  convert_illegal_S3_chars path replace_with_default.

Definition grader_submission_file_path (instance : Submission)
  (filename : string) : string :=
  let path :=
    (course_edx_id (assignment_course (assignment instance))
     ++ "/grader-uploads/"
     ++ assignment_edx_id (assignment instance)
     ++ "/"
     ++ username (student instance)
     ++ "-"
     ++ assignment_name (assignment instance)
     ++ snd (splitext filename))%string in
  convert_illegal_S3_chars path replace_with_default.

(** The spec's words: the path of the given role, and the replacement
    of each invalid character by the substitution character. *)
Inductive Role : Type := student_role | grader_role.

Definition role_name (r : Role) : string :=
  match r with
  | student_role => "student"
  | grader_role => "grader"
  end.

Definition key_template (r : Role) (course_id assignment_id user
                                    name extension : string) : string :=
  (course_id ++ "/" ++ role_name r ++ "-uploads/" ++ assignment_id ++ "/"
   ++ user ++ "-" ++ name ++ extension)%string.

Fixpoint substitute_invalid (s : string) : string :=
  match s with
  | EmptyString => EmptyString
  | String c r =>
      String (if INVALID_S3_CHARACTERS_REGEX c then "_"%char else c)
             (substitute_invalid r)
  end.

Definition upload_path (r : Role) : Submission -> string -> string :=
  match r with
  | student_role => student_submission_file_path
  | grader_role => grader_submission_file_path
  end.

End PathBuilder.

(** *** The streaming zip export *)

(** [io.BytesIO]: the buffer and the stream position. *)
Record BytesIO : Type := {
  buffer : bytes;
  position : Z
}.

(** The public attributes of an [io.BytesIO] object. *)
Definition BytesIO_attributes : list string :=
  ["close"; "closed"; "detach"; "fileno"; "flush"; "getbuffer"; "getvalue";
   "isatty"; "read"; "read1"; "readable"; "readinto"; "readinto1";
   "readline"; "readlines"; "seek"; "seekable"; "tell"; "truncate";
   "writable"; "write"; "writelines"].

(** [b.write(data)]: overwrite from the position on, growing the buffer. *)
Definition BytesIO_write (b : BytesIO) (data : bytes) : BytesIO :=
  let n := Z.to_nat (position b) in
  {| buffer := firstn n (buffer b) ++ data
               ++ skipn (n + List.length data) (buffer b);
     position := position b + Z.of_nat (List.length data) |}.

Definition BytesIO_seek (b : BytesIO) (offset : Z) : BytesIO :=
  {| buffer := buffer b; position := offset |}.

(** One entry of [ZipFile.filelist]. *)
Record ZipInfo : Type := {
  orig_filename : string;
  header_offset : Z;
  file_data : bytes
}.

(** A [ZipFile] opened for writing on a [BytesIO]. *)
Record ZipFile : Type := {
  filelist : list ZipInfo;
  start_dir : Z
}.

(** The two objects the generator holds. *)
Record Heap : Type := {
  bytes_io : BytesIO;
  zip_file : ZipFile
}.

(** A generator body: from the heap, the chunks it yields in order, the
    heap it leaves, and whether it returned or raised. *)
Definition Gen (A : Type) : Type := Heap -> list bytes * Heap * result A.

Definition gret {A : Type} (a : A) : Gen A := fun h => ([], h, inr a).

Definition gbind {A B : Type} (c : Gen A) (k : A -> Gen B) : Gen B :=
  fun h =>
    match c h with
    | (ys, h', inl e) => (ys, h', inl e)
    | (ys, h', inr a) =>
        match k a h' with
        | (zs, h'', r) => (ys ++ zs, h'', r)
        end
    end.

Definition graise {A : Type} (e : exn) : Gen A := fun h => ([], h, inl e).

Definition gyield (chunk : bytes) : Gen unit := fun h => ([chunk], h, inr tt).

Notation "x <- c ;; k" := (gbind c (fun x => k))
  (at level 61, c at next level, right associativity).
Notation "c ;; k" := (gbind c (fun _ => k))
  (at level 61, right associativity).

Fixpoint for_each {A : Type} (l : list A) (body : A -> Gen unit) : Gen unit :=
  match l with
  | [] => gret tt
  | x :: l' => body x ;; for_each l' body
  end.

(** What [writestr] can be given for a name: a string, or, as the
    generator does, the document object itself. *)
Inductive Arcname : Type :=
| arc_str (name : string)
| arc_file (document : option FieldFile).

(** [filename[0:null_byte]]: a name up to its first null byte. *)
Fixpoint until_null (name : string) : string :=
  match name with
  | EmptyString => EmptyString
  | String c r =>
      if Ascii.eqb c zero then EmptyString else String c (until_null r)
  end.

Section ZipExport.

(** The byte layout of [zipfile]: the local header of an entry followed
    by its deflated data, and the central directory followed by the
    end-of-central-directory record. *)
Variable local_file_record : string -> bytes -> bytes.
Variable end_record : list ZipInfo -> Z -> bytes.

(** [ZipInfo(filename=...)], with which [writestr] begins when it is not
    given a [ZipInfo]: it calls [filename.find(chr(0))] and cuts a string
    at its first null byte.  A [FieldFile] is no string and has no
    attribute [find]. *)
Definition ZipInfo_filename (filename : Arcname) : Gen string :=
  match filename with
  | arc_str name => gret (until_null name)
  | arc_file _ => graise (AttributeError "find")
  end.

(** [zip_file.writestr(zinfo_or_arcname, data)]. *)
Definition writestr (zinfo_or_arcname : Arcname) (data : bytes) : Gen unit :=
  name <- ZipInfo_filename zinfo_or_arcname ;;
  fun h =>
    let fp := BytesIO_seek (bytes_io h) (start_dir (zip_file h)) in
    let zinfo := {| orig_filename := name;
                    header_offset := position fp;
                    file_data := data |} in
    let fp' := BytesIO_write fp (local_file_record name data) in
    ([], {| bytes_io := fp';
            zip_file := {| filelist := filelist (zip_file h) ++ [zinfo];
                           start_dir := position fp' |} |}, inr tt).

(** [zip_file.close()]: the central directory is written at
    [start_dir]. *)
Definition close : Gen unit :=
  fun h =>
    let fp := BytesIO_seek (bytes_io h) (start_dir (zip_file h)) in
    let fp' := BytesIO_write fp (end_record (filelist (zip_file h))
                                           (start_dir (zip_file h))) in
    ([], {| bytes_io := fp'; zip_file := zip_file h |}, inr tt).

(** [with ZipFile(bytes_io, mode="w", ...) as zip_file: body]: the
    archive is closed when the block is left, also by an exception,
    which is then raised again. *)
Definition with_ZipFile (body : Gen unit) : Gen unit :=
  fun h =>
    match body h with
    | (ys, h', r) =>
        match close h' with
        | (zs, h'', r') =>
            (ys ++ zs, h'', match r with inl e => inl e | inr _ => r' end)
        end
    end.

Definition getvalue : Gen bytes :=
  fun h => ([], h, inr (buffer (bytes_io h))).

(** [bytes_io.<name>]: the attribute lookup that precedes a call. *)
Definition getattr_BytesIO (name : string) : Gen unit :=
  if existsb (String.eqb name) BytesIO_attributes then gret tt
  else graise (AttributeError name).

(** [submission.student_document.read()]; a document field that holds
    no file raises [ValueError]. *)
Definition read (document : option FieldFile) : Gen bytes :=
  match document with
  | Some f => gret (file_content f)
  | None => graise ValueError
  end.

Definition submissions_zip_generator (submissions : list Submission)
  : Gen unit :=
  with_ZipFile
    (for_each submissions (fun submission =>
       data <- read (student_document submission) ;;
       writestr (arc_file (student_document submission)) data ;;
       chunk <- getvalue ;;
       gyield chunk ;;
       getattr_BytesIO "empty")) ;;
  chunk <- getvalue ;;
  gyield chunk.

(** [bytes_io = BytesIO()] and the freshly opened archive. *)
Definition initial_heap : Heap :=
  {| bytes_io := {| buffer := []; position := 0 |};
     zip_file := {| filelist := []; start_dir := 0 |} |}.

(** What a consumer of the generator observes: the chunks, then either
    the end of the iteration or the exception. *)
Definition consume (submissions : list Submission)
  : list bytes * result unit :=
  match submissions_zip_generator submissions initial_heap with
  | (chunks, _, r) => (chunks, r)
  end.

End ZipExport.

End Files.

(* ===================================================================== *)
(** ** The query layer *)
(* ===================================================================== *)

Module Orm.

(** [Model.objects.get] with keyword filters, over the rows of a table. *)
Definition objects_get {A : Type} (kwargs : A -> bool) (rows : list A)
  : result A :=
  match filter kwargs rows with
  | [] => inl DoesNotExist
  | [obj] => inr obj
  | _ :: _ :: _ => inl MultipleObjectsReturned
  end.

(** [django.shortcuts.get_object_or_404]: only the missing row is turned
    into [Http404]. *)
Definition get_object_or_404 {A : Type} (kwargs : A -> bool) (rows : list A)
  : result A :=
  match objects_get kwargs rows with
  | inl DoesNotExist => inl Http404
  | r => r
  end.

(** [queryset.count()]. *)
Definition count {A : Type} (rows : list A) : Z := Z.of_nat (List.length rows).

(** [field=user] on a nullable foreign key. *)
Definition fk_is (v : option User) (u : User) : bool :=
  match v with
  | Some w => user_eqb w u
  | None => false
  end.

(** [field__in=users]. *)
Definition user_in (u : User) (users : list User) : bool :=
  existsb (user_eqb u) users.

(** [queryset.filter(pk=user.pk).exists()]. *)
Definition filter_pk_exists (users : list User) (u : User) : bool :=
  existsb (fun v => user_pk v =? user_pk u) users.

End Orm.

Import Orm.

(* ===================================================================== *)
(** ** sga/models.py *)
(* ===================================================================== *)

Module Models.

(** *** CourseModel *)

(** The models that derive from [CourseModel]: each has a [course_id]
    column and a table. *)
Class CourseModel (A : Type) : Type := {
  course_id : A -> Z;
  objects : Database -> list A
}.

#[global] Instance Grader_CourseModel : CourseModel Grader :=
  {| course_id := fun g => course_pk (grader_course g);
     objects := graders |}.

#[global] Instance Student_CourseModel : CourseModel Student :=
  {| course_id := fun s => course_pk (student_course s);
     objects := students |}.

#[global] Instance Assignment_CourseModel : CourseModel Assignment :=
  {| course_id := fun a => course_pk (assignment_course a);
     objects := assignments |}.

Definition get_or_404_check_course {A : Type} `{CourseModel A}
  (db : Database) (course_id' : Z) (kwargs : A -> bool) : result A :=
  match get_object_or_404 kwargs (objects db) with
  | inl e => inl e
  | inr obj =>
      if negb (course_id obj =? course_id') then inl PermissionDenied
      else inr obj
  end.

(** *** Related managers *)

(** [course.students], [course.graders], [course.administrators]. *)
Definition course_students (db : Database) (c : Course) : list User :=
  map student_user
      (filter (fun s => course_eqb (student_course s) c) (students db)).

Definition course_graders (db : Database) (c : Course) : list User :=
  map grader_user
      (filter (fun g => course_eqb (grader_course g) c) (graders db)).

Definition course_administrators (db : Database) (c : Course) : list User :=
  map snd (filter (fun p => course_eqb (fst p) c) (administrators db)).

(** [assignment.submissions]. *)
Definition assignment_submissions (db : Database) (a : Assignment)
  : list Submission :=
  filter (fun s => assignment_eqb (assignment s) a) (submissions db).

(** [grader.students]. *)
Definition grader_students (db : Database) (g : Grader) : list Student :=
  filter (fun s => match student_grader s with
                   | Some h => grader_eqb h g
                   | None => false
                   end) (students db).

(** *** Grader *)

Definition Grader_graded_submissions_set (db : Database) (self : Grader)
  : list Submission :=
  filter (fun s => fk_is (graded_by s) (grader_user self)
                   && course_eqb (assignment_course (assignment s))
                                 (grader_course self)
                   && Bool.eqb (submitted s) true
                   && Bool.eqb (graded s) true) (submissions db).

Definition Grader_graded_submissions_count (db : Database) (self : Grader)
  : Z :=
  count (Grader_graded_submissions_set db self).

Definition Grader_not_graded_submissions_set (db : Database) (self : Grader)
  : list Submission :=
  let student_users := map student_user (grader_students db self) in
  filter (fun s => user_in (student s) student_users
                   && course_eqb (assignment_course (assignment s))
                                 (grader_course self)
                   && Bool.eqb (submitted s) true
                   && Bool.eqb (graded s) false) (submissions db).

Definition Grader_not_graded_submissions_count (db : Database)
  (self : Grader) : Z :=
  count (Grader_not_graded_submissions_set db self).

Definition available_student_slots_count (db : Database) (self : Grader)
  : Z :=
  max_students self - count (grader_students db self).

(** *** Course *)

Definition has_grader (db : Database) (self : Course) (user : User) : bool :=
  filter_pk_exists (course_graders db self) user.

Definition has_student (db : Database) (self : Course) (user : User) : bool :=
  filter_pk_exists (course_students db self) user
  && negb (has_grader db self user).

Definition has_admin (db : Database) (self : Course) (user : User) : bool :=
  filter_pk_exists (course_administrators db self) user.

Definition not_graded_submissions_count_by_student (db : Database)
  (self : Course) (student' : Student) : Z :=
  count (filter (fun s => course_eqb (assignment_course (assignment s)) self
                          && user_eqb (student s) (student_user student')
                          && Bool.eqb (submitted s) true
                          && Bool.eqb (graded s) false) (submissions db)).

(** *** Assignment *)

Definition graded_submissions_set (db : Database) (self : Assignment)
  : list Submission :=
  filter (fun s => Bool.eqb (submitted s) true && Bool.eqb (graded s) true)
         (assignment_submissions db self).

Definition graded_submissions_count (db : Database) (self : Assignment) : Z :=
  count (graded_submissions_set db self).

Definition graded_submissions_set_by_grader (db : Database)
  (self : Assignment) (grader_user' : User) : list Submission :=
  filter (fun s => fk_is (graded_by s) grader_user'
                   && assignment_eqb (assignment s) self
                   && Bool.eqb (submitted s) true
                   && Bool.eqb (graded s) true) (submissions db).

Definition graded_submissions_count_by_grader (db : Database)
  (self : Assignment) (grader : option Grader) (grader_user' : option User)
  : result Z :=
  match (if negb (truthy_obj grader_user')
         then match grader with
              | Some g => inr (grader_user g)
              | None => inl (AttributeError "user")
              end
         else match grader_user' with
              | Some u => inr u
              | None => inl (AttributeError "user")
              end) with
  | inl e => inl e
  | inr u => inr (count (graded_submissions_set_by_grader db self u))
  end.

Definition not_graded_submissions_set (db : Database) (self : Assignment)
  : list Submission :=
  filter (fun s => Bool.eqb (submitted s) true && Bool.eqb (graded s) false)
         (assignment_submissions db self).

Definition not_graded_submissions_count (db : Database) (self : Assignment)
  : Z :=
  count (not_graded_submissions_set db self).

(** [Grader.objects.get(user=grader_user, course=self.course)]. *)
Definition grader_of_user (db : Database) (self : Assignment)
  (grader_user' : option User) : result Grader :=
  objects_get (fun g => match grader_user' with
                        | Some u => user_eqb (grader_user g) u
                        | None => false
                        end
                        && course_eqb (grader_course g)
                                      (assignment_course self))
              (graders db).

Definition not_graded_submissions_set_by_grader (db : Database)
  (self : Assignment) (grader : Grader) : list Submission :=
  let student_users := map student_user (grader_students db grader) in
  filter (fun s => user_in (student s) student_users
                   && assignment_eqb (assignment s) self
                   && Bool.eqb (submitted s) true
                   && Bool.eqb (graded s) false) (submissions db).

Definition not_graded_submissions_count_by_grader (db : Database)
  (self : Assignment) (grader : option Grader) (grader_user' : option User)
  : result Z :=
  match (if negb (truthy_obj grader)
         then grader_of_user db self grader_user'
         else match grader with
              | Some g => inr g
              | None => inl (AttributeError "students")
              end) with
  | inl e => inl e
  | inr g => inr (count (not_graded_submissions_set_by_grader db self g))
  end.

Definition students_in_course (db : Database) (self : Assignment) : Z :=
  count (course_students db (assignment_course self))
  - count (course_graders db (assignment_course self)).

Definition not_submitted_submissions_count (db : Database)
  (self : Assignment) : Z :=
  (* Graders all have student objects *)
  students_in_course db self
  - graded_submissions_count db self
  - not_graded_submissions_count db self.

Definition not_submitted_submissions_count_by_grader (db : Database)
  (self : Assignment) (grader : option Grader) (grader_user' : option User)
  : result Z :=
  match (if negb (truthy_obj grader)
         then grader_of_user db self grader_user'
         else match grader with
              | Some g => inr g
              | None => inl (AttributeError "students")
              end) with
  | inl e => inl e
  | inr g =>
      match graded_submissions_count_by_grader db self None
              (Some (grader_user g)) with
      | inl e => inl e
      | inr n_graded =>
          match not_graded_submissions_count_by_grader db self (Some g) None
          with
          | inl e => inl e
          | inr n_not_graded =>
              inr (count (grader_students db g) - n_graded - n_not_graded)
          end
      end
  end.

(** *** Submission *)

(** ["{grade}".format(grade=v)] for a nullable integer. *)
Definition format_grade (v : option Z) : string :=
  match v with
  | Some n => str_of_int n
  | None => "None"
  end.

Definition grade_display (self : Submission) : string :=
  if truthy_int (grade self)
  then (format_grade (grade self) ++ "/100 ("
        ++ format_grade (grade self) ++ "%)")%string
  else "(Not Graded)".

End Models.

(* ===================================================================== *)
(** ** sga/views.py *)
(* ===================================================================== *)

Module Views.

(** *** Attribute assignment on a [Submission] instance *)

Definition set_status (s : Submission) (submitted' graded' : bool)
  (submitted_at' graded_at' : option Z) (graded_by' : option User)
  (updated_on' : Z) : Submission :=
  {| pk := pk s;
     created_on := created_on s;
     updated_on := updated_on';
     assignment := assignment s;
     student := student s;
     graded_by := graded_by';
     description := description s;
     feedback := feedback s;
     grade := grade s;
     submitted_at := submitted_at';
     graded_at := graded_at';
     submitted := submitted';
     graded := graded';
     student_document := student_document s;
     grader_document := grader_document s |}.

Definition set_submitted (s : Submission) (v : bool) : Submission :=
  set_status s v (graded s) (submitted_at s) (graded_at s) (graded_by s)
             (updated_on s).

Definition set_graded (s : Submission) (v : bool) : Submission :=
  set_status s (submitted s) v (submitted_at s) (graded_at s) (graded_by s)
             (updated_on s).

Definition set_submitted_at (s : Submission) (v : option Z) : Submission :=
  set_status s (submitted s) (graded s) v (graded_at s) (graded_by s)
             (updated_on s).

Definition set_graded_at (s : Submission) (v : option Z) : Submission :=
  set_status s (submitted s) (graded s) (submitted_at s) v (graded_by s)
             (updated_on s).

Definition set_graded_by (s : Submission) (v : option User) : Submission :=
  set_status s (submitted s) (graded s) (submitted_at s) (graded_at s) v
             (updated_on s).

Definition set_updated_on (s : Submission) (v : Z) : Submission :=
  set_status s (submitted s) (graded s) (submitted_at s) (graded_at s)
             (graded_by s) v.

Definition set_submissions (db : Database) (rows : list Submission)
  : Database :=
  {| administrators := administrators db;
     graders := graders db;
     students := students db;
     assignments := assignments db;
     submissions := rows |}.

(** The row [Submission.objects.create(student=..., assignment=...)]
    inserts: every other column at its default. *)
Definition new_submission (pk' now : Z) (student' : User)
  (assignment' : Assignment) : Submission :=
  {| pk := pk';
     created_on := now;
     updated_on := now;
     assignment := assignment';
     student := student';
     graded_by := None;
     description := None;
     feedback := None;
     grade := None;
     submitted_at := None;
     graded_at := None;
     submitted := false;
     graded := false;
     student_document := None;
     grader_document := None |}.

(** The next value of the auto-incremented primary key. *)
Definition next_pk (rows : list Submission) : Z :=
  1 + fold_right (fun s m => Z.max (pk s) m) 0 rows.

(** *** Views as state transformers that may raise *)

Definition View (A : Type) : Type := Database -> result A * Database.

Definition ret {A : Type} (a : A) : View A := fun db => (inr a, db).

Definition raise {A : Type} (e : exn) : View A := fun db => (inl e, db).

Definition bind {A B : Type} (c : View A) (k : A -> View B) : View B :=
  fun db =>
    match c db with
    | (inl e, db') => (inl e, db')
    | (inr a, db') => k a db'
    end.

(** [try: c except: handler]: a bare [except] catches whatever is raised. *)
Definition try_except {A : Type} (c : View A) (handler : exn -> View A)
  : View A :=
  fun db =>
    match c db with
    | (inl e, db') => handler e db'
    | (inr a, db') => (inr a, db')
    end.

Notation "x <- c ;; k" := (bind c (fun x => k))
  (at level 61, c at next level, right associativity).

(** A read-only query. *)
Definition query {A : Type} (q : Database -> result A) : View A :=
  fun db => (q db, db).

(** [Submission.objects.get_or_create(student=..., assignment=...)]. *)
Definition get_or_create (now : Z) (student' : User)
  (assignment' : Assignment) : View (Submission * bool) :=
  fun db =>
    match objects_get (fun s => user_eqb (student s) student'
                                && assignment_eqb (assignment s) assignment')
                      (submissions db) with
    | inr obj => (inr (obj, false), db)
    | inl DoesNotExist =>
        let obj := new_submission (next_pk (submissions db)) now student'
                                  assignment' in
        (inr (obj, true), set_submissions db (submissions db ++ [obj]))
    | inl e => (inl e, db)
    end.

(** [submission.save()]: [updated_on] is refreshed and the row of that
    primary key is rewritten, or inserted when there is none.  The
    instance as saved is returned. *)
Definition save (now : Z) (s : Submission) : View Submission :=
  fun db =>
    let s' := set_updated_on s now in
    let rows := submissions db in
    (inr s',
     set_submissions db
       (if existsb (fun r => pk r =? pk s') rows
        then map (fun r => if pk r =? pk s' then s' else r) rows
        else rows ++ [s'])).

Inductive Method : Type := GET | POST.

Inductive Response : Type :=
| Rendered (template : string) (submission_pk : Z)
           (next_not_graded_submission_url : option string)
| Redirected (to : string).

Section Forms.

(** The payload of a form post ([request.POST] and [request.FILES]). *)
Variable FormData : Type.

Record Request : Type := {
  method : Method;
  user : User;
  data : FormData;
  now : Z
}.

(** [StudentAssignmentSubmissionForm] and
    [GraderAssignmentSubmissionForm] of [sga/forms.py]: whether the
    posted payload validates against the instance, and the instance
    with the form's fields assigned. *)
Variable student_form_is_valid : FormData -> Submission -> bool.
Variable student_form_fields : FormData -> Submission -> Submission.
Variable grader_form_is_valid : FormData -> Submission -> bool.
Variable grader_form_fields : FormData -> Submission -> Submission.

(** [form.save()]: the instance the form was built on is the view's
    [submission] object itself, so the assignment of the fields is
    seen by the view. *)
Definition form_save (fields : FormData -> Submission -> Submission)
  (request : Request) (instance : Submission) : View Submission :=
  save (now request) (fields (data request) instance).

(** The lookups at the head of the views, the body of their [try]. *)
Definition lookup_as_student (request : Request) (assignment_id : string)
  : View (Assignment * Submission) :=
  assignment' <- query (fun db =>
    objects_get (fun a => String.eqb (assignment_edx_id a) assignment_id)
                (assignments db)) ;;
  sc <- get_or_create (now request) (user request) assignment' ;;
  ret (assignment', fst sc).

Definition lookup_as_staff (request : Request)
  (assignment_id student_user_id : string)
  : View (Assignment * Student * Submission) :=
  assignment' <- query (fun db =>
    objects_get (fun a => String.eqb (assignment_edx_id a) assignment_id)
                (assignments db)) ;;
  student' <- query (fun db =>
    objects_get (fun s => String.eqb (username (student_user s))
                                     student_user_id)
                (students db)) ;;
  sc <- get_or_create (now request) (student_user student') assignment' ;;
  ret (assignment', student', fst sc).

Definition view_submission_as_student (request : Request)
  (assignment_id : string) : View Response :=
  found <- try_except (lookup_as_student request assignment_id)
                      (fun _ => raise Http404) ;;
  let submission := snd found in
  match method request with
  | POST =>
      if student_form_is_valid (data request) submission then
        submission <- form_save student_form_fields request submission ;;
        submission <- save (now request)
                        (set_submitted_at (set_submitted submission true)
                                          (Some (now request))) ;;
        ret (Rendered "sga/view_submission_as_student.html"
                      (pk submission) None)
      else
        ret (Rendered "sga/view_submission_as_student.html"
                      (pk submission) None)
  | GET =>
      ret (Rendered "sga/view_submission_as_student.html"
                    (pk submission) None)
  end.

(** [Submission.objects.filter(assignment=assignment, submitted=True,
    graded_at=None).exclude(pk=submission.pk).first()], and the
    username the url is built from. *)
Definition next_not_graded_submission (assignment' : Assignment)
  (submission : Submission) : View (option string) :=
  query (fun db =>
    inr (option_map (fun s => username (student s))
           (hd_error
              (filter (fun s => negb (pk s =? pk submission))
                 (filter (fun s =>
                            assignment_eqb (assignment s) assignment'
                            && Bool.eqb (submitted s) true
                            && match graded_at s with
                               | None => true
                               | Some _ => false
                               end) (submissions db)))))).

Definition view_submission_as_staff (request : Request)
  (assignment_id student_user_id : string) : View Response :=
  found <- try_except
             (lookup_as_staff request assignment_id student_user_id)
             (fun _ => raise Http404) ;;
  let assignment' := fst (fst found) in
  let submission := snd found in
  next_url <- next_not_graded_submission assignment' submission ;;
  match method request with
  | POST =>
      if grader_form_is_valid (data request) submission then
        submission <- form_save grader_form_fields request submission ;;
        submission <- save (now request)
                        (set_graded
                           (set_graded_by
                              (set_graded_at submission
                                             (Some (now request)))
                              (Some (user request)))
                           true) ;;
        ret (Rendered "sga/view_submission_as_staff.html"
                      (pk submission) next_url)
      else
        ret (Rendered "sga/view_submission_as_staff.html"
                      (pk submission) next_url)
  | GET =>
      ret (Rendered "sga/view_submission_as_staff.html"
                    (pk submission) next_url)
  end.

Definition unsubmit_submission (request : Request)
  (assignment_id student_user_id : string) : View Response :=
  found <- try_except
             (lookup_as_staff request assignment_id student_user_id)
             (fun _ => raise Http404) ;;
  let submission := snd found in
  submission <- save (now request)
                  (set_graded (set_submitted submission false) false) ;;
  ret (Redirected "view_submission_as_staff").

(** A call of one of the three submission views. *)
Inductive Call : Type :=
| as_student (request : Request) (assignment_id : string)
| as_staff (request : Request) (assignment_id student_user_id : string)
| unsubmit (request : Request) (assignment_id student_user_id : string).

Definition run (c : Call) : View Response :=
  match c with
  | as_student r a => view_submission_as_student r a
  | as_staff r a u => view_submission_as_staff r a u
  | unsubmit r a u => unsubmit_submission r a u
  end.

(** The exception, if any, that the lookup step of a call raises. *)
Definition lookup_raises (c : Call) (db : Database) : option exn :=
  match c with
  | as_student r a =>
      match fst (lookup_as_student r a db) with
      | inl e => Some e
      | inr _ => None
      end
  | as_staff r a u | unsubmit r a u =>
      match fst (lookup_as_staff r a u db) with
      | inl e => Some e
      | inr _ => None
      end
  end.

(** The states the views can bring about, starting from a database in
    which no submission has been created yet. *)
Inductive reachable : Database -> Prop :=
| reachable_initial (db : Database) :
    submissions db = [] -> reachable db
| reachable_step (db : Database) (c : Call) :
    reachable db -> reachable (snd (run c db)).

End Forms.

Arguments method {FormData} _.
Arguments user {FormData} _.
Arguments data {FormData} _.
Arguments now {FormData} _.
Arguments form_save {FormData} fields request instance _.
Arguments lookup_as_student {FormData} request assignment_id _.
Arguments lookup_as_staff {FormData} request assignment_id student_user_id _.
Arguments view_submission_as_student {FormData} _ _ request assignment_id _.
Arguments view_submission_as_staff {FormData} _ _ request assignment_id
  student_user_id _.
Arguments unsubmit_submission {FormData} request assignment_id
  student_user_id _.
Arguments as_student {FormData} request assignment_id.
Arguments as_staff {FormData} request assignment_id student_user_id.
Arguments unsubmit {FormData} request assignment_id student_user_id.
Arguments run {FormData} _ _ _ _ c _.
Arguments lookup_raises {FormData} c db.
Arguments reachable {FormData} _ _ _ _ _.

(** The invariant of the grading state machine. *)
Definition status_consistent (s : Submission) : Prop :=
  (graded s = true -> graded_at s <> None /\ graded_by s <> None)
  /\ (submitted s = true -> submitted_at s <> None).

End Views.

(* ===================================================================== *)
(** ** Role resolution *)
(* ===================================================================== *)

Module Authentication.

Import Models.

Inductive Roles : Type := student | grader | admin | none.

(** Modelled from the spec: [get_role] of [sga/backend/authentication.py],
    which is not among the sources.  The role of a user in a course is
    found by membership lookup against the three relation sets of the
    course; admin membership and grader membership both take priority
    over student membership, and a user who is admin and student
    resolves to admin. *)
Definition get_role (db : Database) (course : Course) (user : User) : Roles :=
  if has_admin db course user then admin
  else if has_grader db course user then grader
  else if has_student db course user then student
  else none.

End Authentication.

(* ===================================================================== *)
(** ** Reasoning about views *)
(* ===================================================================== *)

Module Logic.

Import Views.

(** Every stored submission satisfies the invariant. *)
Definition consistent (db : Database) : Prop :=
  forall s, In s (submissions db) -> status_consistent s.

(** A form that leaves the grading columns of the instance alone. *)
Definition keeps_grading {FormData : Type}
  (fields : FormData -> Submission -> Submission) : Prop :=
  forall d s,
    graded (fields d s) = graded s
    /\ graded_at (fields d s) = graded_at s
    /\ graded_by (fields d s) = graded_by s.

(** A form that leaves the submission columns of the instance alone. *)
Definition keeps_submission {FormData : Type}
  (fields : FormData -> Submission -> Submission) : Prop :=
  forall d s,
    submitted (fields d s) = submitted s
    /\ submitted_at (fields d s) = submitted_at s.

End Logic.

(* ===================================================================== *)
(** ** Sample data *)
(* ===================================================================== *)

Module Sample.

Import Views.

Definition cs101 : Course := {| course_pk := 1; course_edx_id := "cs101" |}.
Definition cs102 : Course := {| course_pk := 2; course_edx_id := "cs102" |}.

Definition hw1 : Assignment :=
  {| assignment_pk := 1;
     assignment_edx_id := "hw1";
     assignment_name := "Homework 1";
     due_date := None;
     grace_period := 0;
     assignment_course := cs101 |}.

Definition alice : User := {| user_pk := 1; username := "alice" |}.
Definition bob : User := {| user_pk := 2; username := "bob" |}.
Definition carol : User := {| user_pk := 3; username := "carol" |}.

(** Bob grades in cs101 and has nobody on his roster. *)
Definition bob_grader : Grader :=
  {| grader_pk := 1; max_students := 10;
     grader_user := bob; grader_course := cs101 |}.

Definition alice_student : Student :=
  {| student_pk := 1; student_grader := None;
     student_user := alice; student_course := cs101 |}.

Definition alice_student_102 : Student :=
  {| student_pk := 2; student_grader := None;
     student_user := alice; student_course := cs102 |}.

Definition carol_student : Student :=
  {| student_pk := 3; student_grader := None;
     student_user := carol; student_course := cs101 |}.

Definition essay : FieldFile :=
  {| file_name := "cs101/student-uploads/hw1/alice-Homework 1.pdf";
     file_content := [x25; x50; x44; x46] |}.

Definition marked : FieldFile :=
  {| file_name := "cs101/grader-uploads/hw1/alice-Homework 1.pdf";
     file_content := [x25; x50; x44; x46; x0a] |}.

(** Alice's submission for hw1, graded 85 by Bob. *)
Definition alice_hw1 : Submission :=
  {| pk := 1;
     created_on := 100;
     updated_on := 300;
     assignment := hw1;
     student := alice;
     graded_by := Some bob;
     description := Some "my essay";
     feedback := Some "well argued";
     grade := Some 85;
     submitted_at := Some 200;
     graded_at := Some 300;
     submitted := true;
     graded := true;
     student_document := Some essay;
     grader_document := Some marked |}.

(** The row Alice's submission becomes when she submits at 200 and Bob
    grades it at 300. *)
Definition alice_graded : Submission :=
  {| pk := 1;
     created_on := 200;
     updated_on := 300;
     assignment := hw1;
     student := alice;
     graded_by := Some bob;
     description := Some "my essay";
     feedback := Some "well argued";
     grade := Some 85;
     submitted_at := Some 200;
     graded_at := Some 300;
     submitted := true;
     graded := true;
     student_document := Some essay;
     grader_document := Some marked |}.

(** The same submission with a grade of zero. *)
Definition alice_hw1_zero : Submission :=
  {| pk := 1;
     created_on := 100;
     updated_on := 300;
     assignment := hw1;
     student := alice;
     graded_by := Some bob;
     description := Some "my essay";
     feedback := Some "see me";
     grade := Some 0;
     submitted_at := Some 200;
     graded_at := Some 300;
     submitted := true;
     graded := true;
     student_document := Some essay;
     grader_document := None |}.

(** Alice is a student of cs101, Bob a grader; Alice's hw1 was graded by
    Bob although she is not on his roster. *)
Definition graded_db : Database :=
  {| administrators := [(cs101, carol)];
     graders := [bob_grader];
     students := [alice_student];
     assignments := [hw1];
     submissions := [alice_hw1] |}.

(** The same course before anything was submitted. *)
Definition empty_db : Database :=
  {| administrators := [(cs101, carol)];
     graders := [bob_grader];
     students := [alice_student];
     assignments := [hw1];
     submissions := [] |}.

(** Carol administers cs101 and is also enrolled in it. *)
Definition admin_student_db : Database :=
  {| administrators := [(cs101, carol)];
     graders := [bob_grader];
     students := [alice_student; carol_student];
     assignments := [hw1];
     submissions := [] |}.

(** Alice is enrolled in two courses, so her username selects two
    [Student] rows. *)
Definition two_courses_db : Database :=
  {| administrators := [];
     graders := [];
     students := [alice_student; alice_student_102];
     assignments := [hw1];
     submissions := [] |}.

(** Forms in the way the spec describes them: a student posts a document
    and a description, a grader a document, feedback and a grade. *)
Record Payload : Type := {
  document : option FieldFile;
  text : option string;
  score : option Z
}.

Definition student_fields (d : Payload) (s : Submission) : Submission :=
  {| pk := pk s;
     created_on := created_on s;
     updated_on := updated_on s;
     assignment := assignment s;
     student := student s;
     graded_by := graded_by s;
     description := text d;
     feedback := feedback s;
     grade := grade s;
     submitted_at := submitted_at s;
     graded_at := graded_at s;
     submitted := submitted s;
     graded := graded s;
     student_document := document d;
     grader_document := grader_document s |}.

Definition grader_fields (d : Payload) (s : Submission) : Submission :=
  {| pk := pk s;
     created_on := created_on s;
     updated_on := updated_on s;
     assignment := assignment s;
     student := student s;
     graded_by := graded_by s;
     description := description s;
     feedback := text d;
     grade := score d;
     submitted_at := submitted_at s;
     graded_at := graded_at s;
     submitted := submitted s;
     graded := graded s;
     student_document := student_document s;
     grader_document := document d |}.

Definition student_valid (d : Payload) (_ : Submission) : bool :=
  match document d with Some _ => true | None => false end.

Definition grader_valid (d : Payload) (_ : Submission) : bool :=
  match score d with
  | Some n => (0 <=? n) && (n <=? 100)
  | None => true
  end.

Definition upload : Payload :=
  {| document := Some essay; text := Some "my essay"; score := None |}.

Definition marking : Payload :=
  {| document := Some marked; text := Some "well argued"; score := Some 85 |}.

Definition alice_posts : Request Payload :=
  {| method := POST; user := alice; data := upload; now := 200 |}.

Definition bob_posts : Request Payload :=
  {| method := POST; user := bob; data := marking; now := 300 |}.

Definition carol_gets : Request Payload :=
  {| method := GET; user := carol; data := upload; now := 400 |}.

(** Alice submits, then Bob grades. *)
Definition after_submit : Database :=
  snd (run student_valid student_fields grader_valid grader_fields
           (as_student alice_posts "hw1") empty_db).

Definition after_grading : Database :=
  snd (run student_valid student_fields grader_valid grader_fields
           (as_staff bob_posts "hw1" "alice") after_submit).

(** A storage pattern that rejects everything but letters, digits and
    a few marks; the space and the slash are accepted. *)
Definition sample_pattern (c : ascii) : bool :=
  let n := Z.of_nat (nat_of_ascii c) in
  negb (((48 <=? n) && (n <=? 57))
        || ((65 <=? n) && (n <=? 90))
        || ((97 <=? n) && (n <=? 122))
        || (n =? 32) || (n =? 45) || (n =? 46) || (n =? 47) || (n =? 95)).

(** A byte layout that keeps the records apart, for running the
    generator: an entry is the local signature, the name and the data;
    the end record is its signature and the names of the entries. *)
Definition sample_local_file_record (name : string) (data : bytes) : bytes :=
  x50 :: x4b :: x03 :: x04 :: list_byte_of_string name ++ data.

Definition sample_end_record (entries : list Files.ZipInfo) (start : Z)
  : bytes :=
  x50 :: x4b :: x05 :: x06
  :: flat_map (fun z => list_byte_of_string (Files.orig_filename z)) entries.

End Sample.

(* ===================================================================== *)
(** ** The words of the spec about the counters *)
(* ===================================================================== *)

Module Scope.

Import Models.

(** The roster of a grader, as users. *)
Definition roster (db : Database) (g : Grader) : list User :=
  map student_user (grader_students db g).


(** The students of a course that [has_student] reports. *)
Definition eligible_students (db : Database) (c : Course) : list User :=
  filter (has_student db c) (course_students db c).

(** The comment in [not_submitted_submissions_count]: graders all have
    student objects. *)
Definition graders_have_student_objects (db : Database) (c : Course) : Prop :=
  forall u, In u (course_graders db c) ->
            filter_pk_exists (course_students db c) u = true.

(** [unique_together = (("user", "course"),)] on [Student] and on
    [Grader]. *)
Definition unique_together (db : Database) (c : Course) : Prop :=
  NoDup (map user_pk (course_students db c))
  /\ NoDup (map user_pk (course_graders db c)).

End Scope.

(* ===================================================================== *)
(** ** More of sga/backend/files.py and sga/models.py *)
(* ===================================================================== *)

Module Keys.

(** No character of [s] matches the pattern. *)
Fixpoint all_valid (pattern : ascii -> bool) (s : string) : bool :=
  match s with
  | EmptyString => true
  | String c r => negb (pattern c) && all_valid pattern r
  end.

(** The replacement holds no backslash, so that [re.sub] does not read
    it as a template and inserts it as it is. *)
Fixpoint literal (s : string) : bool :=
  match s with
  | EmptyString => true
  | String c r => negb (Ascii.eqb c (ascii_of_nat 92)) && literal r
  end.

(** What the zip generator leaves in [bytes_io] when it has returned or
    raised. *)
Definition left_in_buffer (local_file_record : string -> bytes -> bytes)
  (end_record : list Files.ZipInfo -> Z -> bytes)
  (submissions : list Submission) : bytes :=
  match Files.submissions_zip_generator local_file_record end_record
          submissions Files.initial_heap with
  | (_, h, _) => Files.buffer (Files.bytes_io h)
  end.

End Keys.

Module Totals.

Import Models.

(** [course.assignments]. *)
Definition course_assignments (db : Database) (c : Course) : list Assignment :=
  filter (fun a => course_eqb (assignment_course a) c) (assignments db).

(** [user.graded_submissions]. *)
Definition user_graded_submissions (db : Database) (u : User)
  : list Submission :=
  filter (fun s => fk_is (graded_by s) u) (submissions db).

(** [course.grader_set]. *)
Definition course_grader_set (db : Database) (c : Course) : list Grader :=
  filter (fun g => course_eqb (grader_course g) c) (graders db).

Fixpoint sum (l : list Z) : Z :=
  match l with
  | [] => 0
  | x :: l' => x + sum l'
  end.

(** The assignment of every submission is one row of the assignment table,
    of the course the submission says. *)
Definition assignments_resolve (db : Database) : Prop :=
  forall s, In s (submissions db) ->
    exists a,
      filter (fun b => assignment_eqb (assignment s) b) (assignments db) = [a]
      /\ course_eqb (assignment_course a) (assignment_course (assignment s))
         = true.

(** The key of [unique_together = (("assignment", "student"),)]. *)
Definition pair_key (s : Submission) : Z * Z :=
  (assignment_pk (assignment s), user_pk (student s)).

(** Primary keys and (assignment, student) pairs are unique among the
    submissions. *)
Definition well_keyed (db : Database) : Prop :=
  NoDup (map pk (submissions db)) /\ NoDup (map pair_key (submissions db)).

(** A form that leaves the identity of the instance alone. *)
Definition keeps_identity {FormData : Type}
  (fields : FormData -> Submission -> Submission) : Prop :=
  forall d s,
    pk (fields d s) = pk s
    /\ student (fields d s) = student s
    /\ assignment (fields d s) = assignment s.

End Totals.

(* ===================================================================== *)
(** ** The other views of sga/views.py *)
(* ===================================================================== *)

Module Pages.

Import Views.

(** A value handed to a template. *)
Inductive PyVal : Type :=
| PyBool (b : bool)
| PyInt (n : Z).

(** What a view renders: the template context. *)
Inductive Page : Type :=
| IndexPage (course : option Course)
| AssignmentPage (course : Course) (assignment' : Assignment)
                 (student_users : list (User * string * string))
| StudentListPage (course : Course) (student_users : list (User * PyVal))
| AssignmentListPage (course : Course) (assignments' : list Assignment)
| StudentPage (course : Course) (student_user' : User)
              (assignments' : list (Assignment * Submission))
| GraderPage (course : Course) (grader' : Grader)
             (graded_submissions : list Submission)
| GraderListPage (course : Course) (graders' : list Grader).

(** A [for] loop whose body may raise, collecting what each round
    produces. *)
Fixpoint for_each {A B : Type} (l : list A) (body : A -> View B)
  : View (list B) :=
  match l with
  | [] => ret []
  | x :: l' =>
      y <- body x ;;
      ys <- for_each l' body ;;
      ret (y :: ys)
  end.

(** [course.<name>(user)]: the methods of [Course] that take one argument.
    [not_graded_submissions_count_by_student] reads [student.user], which
    a [User] does not have; any other name is no attribute of a course. *)
Definition call_Course_method (name : string) (course : Course) (user' : User)
  : View PyVal :=
  if String.eqb name "has_student" then
    query (fun db => inr (PyBool (Models.has_student db course user')))
  else if String.eqb name "has_grader" then
    query (fun db => inr (PyBool (Models.has_grader db course user')))
  else if String.eqb name "has_admin" then
    query (fun db => inr (PyBool (Models.has_admin db course user')))
  else if String.eqb name "not_graded_submissions_count_by_student" then
    raise (AttributeError "user")
  else raise (AttributeError name).

(** An exception of the views, or the [TypeError] of a call of something
    that is no function. *)
Inductive failure : Type :=
| Raised (e : exn)
| TypeError (message : string).

Definition ViewF (A : Type) : Type := Database -> (failure + A) * Database.

Definition retF {A : Type} (a : A) : ViewF A := fun db => (inr a, db).

Definition raiseF {A : Type} (f : failure) : ViewF A := fun db => (inl f, db).

Definition bindF {A B : Type} (c : ViewF A) (k : A -> ViewF B) : ViewF B :=
  fun db =>
    match c db with
    | (inl f, db') => (inl f, db')
    | (inr a, db') => k a db'
    end.

Definition lift {A : Type} (c : View A) : ViewF A :=
  fun db =>
    match c db with
    | (inl e, db') => (inl (Raised e), db')
    | (inr a, db') => (inr a, db')
    end.

Fixpoint for_eachF {A B : Type} (l : list A) (body : A -> ViewF B)
  : ViewF (list B) :=
  match l with
  | [] => retF []
  | x :: l' =>
      bindF (body x) (fun y =>
      bindF (for_eachF l' body) (fun ys =>
      retF (y :: ys)))
  end.

(** [b()] for a [bool]. *)
Definition call_bool {A : Type} (b : bool) : ViewF A :=
  raiseF (TypeError "'bool' object is not callable").

Section Pages.

Context {FormData : Type}.

(** The rows of [Course], which no view writes. *)
Variable courses : list Course.

Definition Course_objects_get (course_id : string) : View Course :=
  query (fun _ =>
    objects_get (fun c => String.eqb (course_edx_id c) course_id) courses).

Definition index (request : Request FormData) : View Page :=
  ret (IndexPage (hd_error courses)).

Definition view_assignment (request : Request FormData)
  (assignment_id : string) : ViewF Page :=
  bindF (lift (try_except
                 (assignment' <- query (fun db =>
                    objects_get (fun a => String.eqb (assignment_edx_id a)
                                                     assignment_id)
                                (assignments db)) ;;
                  ret (assignment', assignment_course assignment'))
                 (fun _ => raise Http404))) (fun found =>
  bindF (lift (query (fun db =>
                 inr (Models.course_students db (snd found)))))
        (fun student_users =>
  bindF (for_eachF student_users (fun student_user' =>
           bindF (lift (get_or_create (now request) student_user'
                          (fst found))) (fun sc =>
           let submitted' := if submitted (fst sc) then "Yes" else "No" in
           bindF (call_bool (graded (fst sc))) (fun called : bool =>
           retF (student_user', submitted',
                 if called then "Yes" else "No"))))) (fun rows =>
  retF (AssignmentPage (snd found) (fst found) rows)))).

Definition view_student_list (request : Request FormData)
  (course_id : string) : View Page :=
  course <- try_except (Course_objects_get course_id)
                       (fun _ => raise Http404) ;;
  student_users <- query (fun db => inr (Models.course_students db course)) ;;
  rows <- for_each student_users (fun student_user' =>
            n <- call_Course_method "not_graded_submissions_count_by_user"
                                    course student_user' ;;
            ret (student_user', n)) ;;
  ret (StudentListPage course rows).

Definition view_assignment_list (request : Request FormData)
  (course_id : string) : View Page :=
  course <- try_except (Course_objects_get course_id)
                       (fun _ => raise Http404) ;;
  assignments' <- query (fun db => inr (Totals.course_assignments db course)) ;;
  ret (AssignmentListPage course assignments').

Definition view_student (request : Request FormData)
  (course_id student_user_id : string) : View Page :=
  found <- try_except
             (course <- Course_objects_get course_id ;;
              student' <- query (fun db =>
                objects_get (fun s => String.eqb (username (student_user s))
                                                 student_user_id)
                            (students db)) ;;
              ret (course, student_user student'))
             (fun _ => raise Http404) ;;
  assignments' <- query (fun db =>
                    inr (Totals.course_assignments db (fst found))) ;;
  rows <- for_each assignments' (fun assignment' =>
            sc <- get_or_create (now request) (snd found) assignment' ;;
            ret (assignment', fst sc)) ;;
  ret (StudentPage (fst found) (snd found) rows).

Definition view_grader (request : Request FormData)
  (course_id grader_user_id : string) : View Page :=
  found <- try_except
             (course <- Course_objects_get course_id ;;
              grader' <- query (fun db =>
                objects_get (fun g => String.eqb (username (grader_user g))
                                                 grader_user_id)
                            (graders db)) ;;
              ret (course, grader'))
             (fun _ => raise Http404) ;;
  graded_submissions <- query (fun db =>
    inr (Totals.user_graded_submissions db (grader_user (snd found)))) ;;
  ret (GraderPage (fst found) (snd found) graded_submissions).

Definition view_grader_list (request : Request FormData)
  (course_id : string) : View Page :=
  course <- try_except (Course_objects_get course_id)
                       (fun _ => raise Http404) ;;
  graders' <- query (fun db => inr (Totals.course_grader_set db course)) ;;
  ret (GraderListPage course graders').

End Pages.

End Pages.

(* ===================================================================== *)
(** ** More sample data *)
(* ===================================================================== *)

Module Roster.

Import Sample.

Definition hw2 : Assignment :=
  {| assignment_pk := 2;
     assignment_edx_id := "hw2";
     assignment_name := "Homework 2";
     due_date := None;
     grace_period := 0;
     assignment_course := cs101 |}.

(** Bob has a student object as well, as every grader should. *)
Definition bob_student : Student :=
  {| student_pk := 4; student_grader := None;
     student_user := bob; student_course := cs101 |}.

(** Alice on Bob's roster. *)
Definition alice_of_bob : Student :=
  {| student_pk := 1; student_grader := Some bob_grader;
     student_user := alice; student_course := cs101 |}.

(** Two assignments, Bob with a student object, Alice on his roster and
    her hw1 graded by him. *)
Definition course_db : Database :=
  {| administrators := [(cs101, carol)];
     graders := [bob_grader];
     students := [alice_of_bob; bob_student];
     assignments := [hw1; hw2];
     submissions := [alice_hw1] |}.

Definition course_table : list Course := [cs101; cs102].

End Roster.

(* ===================================================================== *)
(** * Facts about sga/backend/files.py *)
(* ===================================================================== *)

(** ** os.path.splitext *)

Example splitext_pdf : Files.splitext "essay.pdf" = ("essay", ".pdf").
Proof. reflexivity. Qed.

Example splitext_hidden_file : Files.splitext ".bashrc" = (".bashrc", "").
Proof. reflexivity. Qed.

Example splitext_dotted_directory : Files.splitext "a.b/c" = ("a.b/c", "").
Proof. reflexivity. Qed.

Example splitext_last_dot_only :
  Files.splitext "archive.tar.gz" = ("archive.tar", ".gz").
Proof. reflexivity. Qed.

Lemma substring_whole (s : string) : substring 0 (String.length s) s = s.
Proof. induction s as [|c s IH]; cbn; congruence. Qed.

Lemma substring_split (s : string) (n : nat) :
  (substring 0 n s ++ substring n (String.length s - n) s)%string = s.
Proof.
  revert n; induction s as [|c s IH]; intros [|n]; cbn; try reflexivity.
  - now rewrite substring_whole.
  - f_equal. apply IH.
Qed.

(** The two halves of [splitext] make up the file name again. *)
Lemma splitext_concat (p : string) :
  (fst (Files.splitext p) ++ snd (Files.splitext p))%string = p.
Proof.
  unfold Files.splitext.
  destruct (_ && _); cbn [fst snd].
  - apply substring_split.
  - clear; induction p as [|c p IH]; cbn; [reflexivity | now rewrite IH].
Qed.

(** ** The upload path builder *)

Section PathBuilderFacts.

Variable pattern : ascii -> bool.

(** With the one-character default, [re.sub] maps the path character by
    character. *)
Lemma re_sub_default (s : string) :
  Files.re_sub pattern Files.replace_with_default s
  = Files.substitute_invalid pattern s.
Proof.
  induction s as [|c s IH]; cbn; [reflexivity|].
  destruct (pattern c); cbn; now rewrite <- IH.
Qed.

Lemma substitute_invalid_length (s : string) :
  String.length (Files.substitute_invalid pattern s) = String.length s.
Proof. induction s as [|c s IH]; cbn; congruence. Qed.

Lemma substitute_invalid_get (s : string) (n : nat) :
  String.get n (Files.substitute_invalid pattern s)
  = option_map (fun c => if pattern c then "_"%char else c) (String.get n s).
Proof.
  revert n; induction s as [|c s IH]; intros [|n]; cbn; auto.
Qed.

(** A character of the key is invalid only where the substitution
    character itself is. *)
Lemma substitute_invalid_clean (s : string) (n : nat) (c : ascii) :
  pattern "_"%char = false ->
  String.get n (Files.substitute_invalid pattern s) = Some c ->
  pattern c = false.
Proof.
  intros Hsub. rewrite substitute_invalid_get.
  destruct (String.get n s) as [d|]; cbn; [|discriminate].
  destruct (pattern d) eqn:Hd; intros [= <-]; assumption.
Qed.

Lemma upload_path_template (r : Files.Role) (instance : Submission)
  (filename : string) :
  Files.upload_path pattern r instance filename
  = Files.substitute_invalid pattern
      (Files.key_template r
         (course_edx_id (assignment_course (assignment instance)))
         (assignment_edx_id (assignment instance))
         (username (student instance))
         (assignment_name (assignment instance))
         (snd (Files.splitext filename))).
Proof.
  destruct r; cbn [Files.upload_path];
    unfold Files.student_submission_file_path,
           Files.grader_submission_file_path,
           Files.convert_illegal_S3_chars, Files.key_template;
    rewrite re_sub_default; reflexivity.
Qed.

(** C3. For either role the upload path is the template
    [{course_id}/{role}-uploads/{assignment_id}/{username}-{assignment_name}{extension}]
    in which every character that matches the invalid-character pattern,
    anywhere in the path, has been replaced by an underscore: the key
    has the length of the template and differs from it exactly at the
    invalid characters.  The key depends on nothing but the four names
    and the extension, so equal inputs give equal keys. *)
Theorem upload_path_spec (r : Files.Role) (instance : Submission)
  (filename : string) :
  let template :=
    Files.key_template r
      (course_edx_id (assignment_course (assignment instance)))
      (assignment_edx_id (assignment instance))
      (username (student instance))
      (assignment_name (assignment instance))
      (snd (Files.splitext filename)) in
  let key := Files.upload_path pattern r instance filename in
  key = Files.substitute_invalid pattern template
  /\ String.length key = String.length template
  /\ (forall n,
        String.get n key
        = option_map (fun c => if pattern c then "_"%char else c)
                     (String.get n template))
  /\ (forall instance' filename',
        course_edx_id (assignment_course (assignment instance'))
        = course_edx_id (assignment_course (assignment instance)) ->
        assignment_edx_id (assignment instance')
        = assignment_edx_id (assignment instance) ->
        username (student instance') = username (student instance) ->
        assignment_name (assignment instance')
        = assignment_name (assignment instance) ->
        snd (Files.splitext filename') = snd (Files.splitext filename) ->
        Files.upload_path pattern r instance' filename' = key).
Proof.
  cbv zeta. rewrite upload_path_template.
  repeat split.
  - apply substitute_invalid_length.
  - apply substitute_invalid_get.
  - intros instance' filename' H1 H2 H3 H4 H5.
    rewrite upload_path_template. congruence.
Qed.

End PathBuilderFacts.

(** The scenario of the spec: Alice uploads [essay.pdf] for hw1. *)
Example alice_uploads_essay :
  Files.student_submission_file_path Sample.sample_pattern Sample.alice_hw1
    "essay.pdf"
  = "cs101/student-uploads/hw1/alice-Homework 1.pdf".
Proof. reflexivity. Qed.

Example grader_uploads_marked_copy :
  Files.grader_submission_file_path Sample.sample_pattern Sample.alice_hw1
    "marked copy?.PDF"
  = "cs101/grader-uploads/hw1/alice-Homework 1.PDF".
Proof. reflexivity. Qed.

Example invalid_characters_are_replaced :
  Files.convert_illegal_S3_chars Sample.sample_pattern "a#b/c d$.txt"
    Files.replace_with_default
  = "a_b/c d_.txt".
Proof. reflexivity. Qed.

(** ** The zip export generator *)

Section ZipExportFacts.

Variable local_file_record : string -> bytes -> bytes.
Variable end_record : list Files.ZipInfo -> Z -> bytes.

(** For no submissions the generator yields the end record of an empty
    archive as its one chunk and returns. *)
Lemma zip_generator_of_nothing :
  Files.consume local_file_record end_record []
  = ([end_record [] 0], inr tt).
Proof.
  unfold Files.consume, Files.submissions_zip_generator, Files.with_ZipFile,
    Files.gbind, Files.close, Files.initial_heap; cbn.
  now rewrite skipn_nil, app_nil_r.
Qed.

(** C1. As soon as there is one submission, the consumer gets no chunk at
    all: the generator hands [writestr] the document object where an
    archive name is expected, and [ZipInfo] fails on it with the
    [AttributeError] of [filename.find] before anything is written or
    yielded.  The archive is closed while the exception unwinds, but the
    end record written then is never yielded, no later submission is
    read, and the [bytes_io.empty()] after the first [yield], which
    [io.BytesIO] does not have either, is not reached.  (A first
    submission without a document raises [ValueError] at [read()].) *)
Theorem zip_generator_raises_before_first_chunk (s : Submission)
  (rest : list Submission) :
  Files.consume local_file_record end_record (s :: rest)
  = match student_document s with
    | Some f => ([], inl (AttributeError "find"))
    | None => ([], inl ValueError)
    end.
Proof.
  unfold Files.consume, Files.submissions_zip_generator, Files.with_ZipFile,
    Files.gbind, Files.close, Files.initial_heap.
  cbn [Files.for_each]. unfold Files.gbind, Files.read.
  destruct (student_document s) as [f|]; reflexivity.
Qed.

(** Given an archive name, [writestr] does write the entry: the failure
    is in what the generator passes, not in the archive writer. *)
Lemma writestr_of_a_name (name : string) (data : bytes) :
  Files.writestr local_file_record (Files.arc_str name) data
    Files.initial_heap
  = ([],
     {| Files.bytes_io :=
          {| Files.buffer :=
               local_file_record (Files.until_null name) data;
             Files.position :=
               Z.of_nat (List.length
                           (local_file_record (Files.until_null name) data))
          |};
        Files.zip_file :=
          {| Files.filelist :=
               [{| Files.orig_filename := Files.until_null name;
                   Files.header_offset := 0;
                   Files.file_data := data |}];
             Files.start_dir :=
               Z.of_nat (List.length
                           (local_file_record (Files.until_null name) data))
          |} |},
     inr tt).
Proof.
  unfold Files.writestr, Files.gbind, Files.ZipInfo_filename, Files.gret,
    Files.initial_heap, Files.BytesIO_write, Files.BytesIO_seek.
  cbn. now rewrite skipn_nil, app_nil_r.
Qed.

End ZipExportFacts.

(** One submission, run on a sample byte layout: nothing is yielded. *)
Example zip_of_one_submission :
  Files.consume Sample.sample_local_file_record Sample.sample_end_record
    [Sample.alice_hw1]
  = ([], inl (AttributeError "find")).
Proof. reflexivity. Qed.

(* ===================================================================== *)
(** * Facts about sga/models.py *)
(* ===================================================================== *)

(** ** Queries *)

Lemma objects_get_inr {A : Type} (kwargs : A -> bool) (rows : list A) (obj : A) :
  objects_get kwargs rows = inr obj <-> filter kwargs rows = [obj].
Proof.
  unfold objects_get.
  destruct (filter kwargs rows) as [|x [|y l]]; split; intros H;
    try discriminate; congruence.
Qed.

Lemma objects_get_found {A : Type} (kwargs : A -> bool) (rows : list A)
  (obj : A) :
  objects_get kwargs rows = inr obj -> In obj rows /\ kwargs obj = true.
Proof.
  intros H. apply objects_get_inr in H.
  apply filter_In. rewrite H. now left.
Qed.

Lemma objects_get_raises {A : Type} (kwargs : A -> bool) (rows : list A)
  (e : exn) :
  objects_get kwargs rows = inl e ->
  e = DoesNotExist \/ e = MultipleObjectsReturned.
Proof.
  unfold objects_get.
  destruct (filter kwargs rows) as [|x [|y l]]; intros [= <-]; auto.
Qed.

(** ** CourseModel.get_or_404_check_course *)

Section CourseModelFacts.

Context {A : Type} `{Models.CourseModel A}.

Lemma get_or_404_check_course_found (db : Database) (cid : Z)
  (kwargs : A -> bool) (obj : A) :
  filter kwargs (Models.objects db) = [obj] ->
  Models.get_or_404_check_course db cid kwargs
  = if Models.course_id obj =? cid then inr obj else inl PermissionDenied.
Proof.
  intros Hfound.
  unfold Models.get_or_404_check_course, get_object_or_404, objects_get.
  rewrite Hfound. now destruct (Models.course_id obj =? cid).
Qed.

(** C10. When the lookup finds its record, a course id that differs from
    the given one makes the call raise [PermissionDenied], not
    [Http404]; and the call returns a record exactly when the lookup
    finds that record and its course id is the given one. *)
Theorem get_or_404_check_course_spec (db : Database) (cid : Z)
  (kwargs : A -> bool) :
  (forall obj,
      filter kwargs (Models.objects db) = [obj] ->
      Models.course_id obj <> cid ->
      Models.get_or_404_check_course db cid kwargs = inl PermissionDenied)
  /\ (forall obj,
        Models.get_or_404_check_course db cid kwargs = inr obj
        <-> filter kwargs (Models.objects db) = [obj]
            /\ Models.course_id obj = cid).
Proof.
  split.
  - intros obj Hfound Hne.
    rewrite (get_or_404_check_course_found _ _ _ _ Hfound).
    now apply Z.eqb_neq in Hne as ->.
  - intros obj; split.
    + unfold Models.get_or_404_check_course, get_object_or_404, objects_get.
      destruct (filter kwargs (Models.objects db)) as [|x [|y l]];
        try discriminate.
      destruct (Models.course_id x =? cid) eqn:E; cbn; try discriminate.
      intros [= <-]. now apply Z.eqb_eq in E.
    + intros [Hfound Heq].
      rewrite (get_or_404_check_course_found _ _ _ _ Hfound).
      now apply Z.eqb_eq in Heq as ->.
Qed.

(** Without a matching record the outcome is [Http404]. *)
Lemma get_or_404_check_course_missing (db : Database) (cid : Z)
  (kwargs : A -> bool) :
  filter kwargs (Models.objects db) = [] ->
  Models.get_or_404_check_course db cid kwargs = inl Http404.
Proof.
  intros Hnone.
  unfold Models.get_or_404_check_course, get_object_or_404, objects_get.
  now rewrite Hnone.
Qed.

End CourseModelFacts.

(** The assignment hw1 belongs to course 1: asked for under course 2 it is
    forbidden, under course 1 it is returned, and an unknown assignment is
    not found. *)
Lemma get_or_404_check_course_sample :
  Models.get_or_404_check_course Sample.graded_db 2
    (fun a => String.eqb (assignment_edx_id a) "hw1") = inl PermissionDenied
  /\ Models.get_or_404_check_course Sample.graded_db 1
       (fun a => String.eqb (assignment_edx_id a) "hw1") = inr Sample.hw1
  /\ Models.get_or_404_check_course Sample.graded_db 1
       (fun a => String.eqb (assignment_edx_id a) "hw2") = inl Http404.
Proof.
  split; [|split].
  - apply (proj1 (get_or_404_check_course_spec Sample.graded_db 2 _)
             Sample.hw1); [reflexivity | discriminate].
  - apply (proj2 (get_or_404_check_course_spec Sample.graded_db 1 _)
             Sample.hw1); split; reflexivity.
  - reflexivity.
Defined.

(** ** Submission.grade_display *)

Lemma grade_display_cases (s : Submission) :
  Models.grade_display s
  = match grade s with
    | Some g =>
        if g =? 0 then "(Not Graded)"
        else (str_of_int g ++ "/100 (" ++ str_of_int g ++ "%)")%string
    | None => "(Not Graded)"
    end.
Proof.
  unfold Models.grade_display, truthy_int, Models.format_grade.
  destruct (grade s) as [g|]; [|reflexivity].
  now destruct (g =? 0).
Qed.

(** A grade other than zero is shown as a score out of 100 and as that
    same number of percent. *)
Lemma grade_display_nonzero (s : Submission) (g : Z) :
  grade s = Some g -> g <> 0 ->
  Models.grade_display s
  = (str_of_int g ++ "/100 (" ++ str_of_int g ++ "%)")%string.
Proof.
  intros Hg Hnz. rewrite grade_display_cases, Hg.
  now apply Z.eqb_neq in Hnz as ->.
Qed.

Lemma grade_display_absent (s : Submission) :
  grade s = None -> Models.grade_display s = "(Not Graded)".
Proof. intros Hg. now rewrite grade_display_cases, Hg. Qed.

Example grade_display_85 :
  Models.grade_display Sample.alice_hw1 = "85/100 (85%)".
Proof. reflexivity. Qed.

(** C4. A grade of zero is present, yet [if self.grade:] takes it for
    absent: the display is [(Not Graded)] and not [0/100 (0%)]. *)
Theorem grade_display_zero (s : Submission) :
  grade s = Some 0 ->
  Models.grade_display s = "(Not Graded)"
  /\ Models.grade_display s <> "0/100 (0%)".
Proof.
  intros Hg. rewrite grade_display_cases, Hg. cbn. split; [reflexivity|].
  discriminate.
Qed.

Lemma grade_display_zero_sample :
  grade Sample.alice_hw1_zero = Some 0
  /\ Models.grade_display Sample.alice_hw1_zero = "(Not Graded)"
  /\ Models.grade_display Sample.alice_hw1_zero <> "0/100 (0%)".
Proof.
  split; [reflexivity|].
  apply (grade_display_zero Sample.alice_hw1_zero). reflexivity.
Defined.

(** ** The counters of an assignment *)

Lemma filter_split_length {A : Type} (f : A -> bool) (l : list A) :
  List.length l
  = (List.length (filter f l)
     + List.length (filter (fun x => negb (f x)) l))%nat.
Proof.
  induction l as [|x l IH]; cbn; [reflexivity|].
  destruct (f x); cbn; lia.
Qed.

Lemma filter_map_length {A B : Type} (f : A -> B) (p : B -> bool)
  (l : list A) :
  List.length (filter (fun x => p (f x)) l)
  = List.length (filter p (map f l)).
Proof.
  induction l as [|x l IH]; cbn; [reflexivity|].
  destruct (p (f x)); cbn; congruence.
Qed.

Lemma existsb_pk (k : Z) (users : list User) :
  existsb (fun v => user_pk v =? k) users
  = existsb (Z.eqb k) (map user_pk users).
Proof.
  induction users as [|v users IH]; cbn; [reflexivity|].
  now rewrite IH, Z.eqb_sym.
Qed.

Lemma existsb_eqb_In (k : Z) (keys : list Z) :
  existsb (Z.eqb k) keys = true <-> In k keys.
Proof.
  rewrite existsb_exists. split.
  - intros (x & Hin & Heq). apply Z.eqb_eq in Heq. now subst.
  - intros Hin. exists k. split; [assumption | apply Z.eqb_refl].
Qed.

(** Among keys without repetition, the members of a sublist are as many
    as the sublist is long. *)
Lemma length_filter_members (all some : list Z) :
  NoDup all -> NoDup some -> incl some all ->
  List.length (filter (fun k => existsb (Z.eqb k) some) all)
  = List.length some.
Proof.
  intros Hall Hsome Hincl.
  apply Permutation_length, NoDup_Permutation;
    [now apply NoDup_filter | assumption |].
  intros k. rewrite filter_In, existsb_eqb_In. split.
  - now intros [_ Hin].
  - intros Hin. split; [now apply Hincl | assumption].
Qed.

(** With every grader among the students, and no user twice in either
    list, the students less the graders are the users that [has_student]
    reports. *)
Lemma students_less_graders (db : Database) (c : Course) :
  Scope.unique_together db c ->
  Scope.graders_have_student_objects db c ->
  count (Models.course_students db c) - count (Models.course_graders db c)
  = count (Scope.eligible_students db c).
Proof.
  intros [Hs Hg] Hobj.
  unfold Scope.eligible_students, count.
  set (S := Models.course_students db c) in *.
  set (G := Models.course_graders db c) in *.
  assert (Hfilter :
    filter (Models.has_student db c) S
    = filter (fun u => negb (Models.has_grader db c u)) S).
  { apply filter_ext_in. intros u Hu. unfold Models.has_student.
    fold S. replace (filter_pk_exists S u) with true; [reflexivity|].
    symmetry. apply existsb_exists. exists u.
    split; [assumption | apply Z.eqb_refl]. }
  rewrite Hfilter.
  assert (Hmembers :
    List.length (filter (Models.has_grader db c) S) = List.length G).
  { unfold Models.has_grader, filter_pk_exists. fold G.
    rewrite (filter_ext _ (fun u => existsb (Z.eqb (user_pk u))
                                            (map user_pk G)))
      by (intros u; apply existsb_pk).
    rewrite (filter_map_length user_pk
               (fun k => existsb (Z.eqb k) (map user_pk G))).
    rewrite length_filter_members, length_map; try assumption.
    - reflexivity.
    - intros k Hk. apply in_map_iff in Hk as (u & <- & Hu).
      specialize (Hobj u Hu). unfold filter_pk_exists in Hobj.
      rewrite existsb_pk in Hobj. now apply existsb_eqb_In. }
  pose proof (filter_split_length (Models.has_grader db c) S) as Hsplit.
  lia.
Qed.

Section CounterFacts.

Variable db : Database.
Variable a : Assignment.

(** The not-submitted count is the students of the course less its
    graders, less the other two counts: the three add up to that
    difference in every database. *)
Lemma counters_add_up :
  Models.graded_submissions_count db a
  + Models.not_graded_submissions_count db a
  + Models.not_submitted_submissions_count db a
  = Models.students_in_course db a.
Proof. unfold Models.not_submitted_submissions_count. lia. Qed.

(** Every submission of the assignment is counted by exactly one of the
    three status predicates. *)
Lemma submissions_by_status :
  count (Models.assignment_submissions db a)
  = Models.graded_submissions_count db a
    + Models.not_graded_submissions_count db a
    + count (filter (fun s => negb (submitted s))
                    (Models.assignment_submissions db a)).
Proof.
  unfold Models.graded_submissions_count, Models.not_graded_submissions_count,
    Models.graded_submissions_set, Models.not_graded_submissions_set, count.
  induction (Models.assignment_submissions db a) as [|s l IH];
    [reflexivity|].
  cbn [filter List.length].
  destruct (submitted s), (graded s); cbn [Bool.eqb andb negb List.length];
    lia.
Qed.

(** X9. Once there is one submission row per student in scope, the
    not-submitted count is the number of rows that are not submitted. *)
Lemma not_submitted_counts_rows :
  count (Models.assignment_submissions db a) = Models.students_in_course db a ->
  Models.not_submitted_submissions_count db a
  = count (filter (fun s => negb (submitted s))
                  (Models.assignment_submissions db a)).
Proof.
  intros Hrows. unfold Models.not_submitted_submissions_count.
  rewrite <- Hrows, submissions_by_status. lia.
Qed.

(** X8. When every grader has a student object, the students in scope
    are the users that [has_student] reports. *)
Lemma students_in_course_eligible :
  Scope.unique_together db (assignment_course a) ->
  Scope.graders_have_student_objects db (assignment_course a) ->
  Models.students_in_course db a
  = count (Scope.eligible_students db (assignment_course a)).
Proof.
  intros Hunique Hobj. unfold Models.students_in_course.
  now apply students_less_graders.
Qed.

(** C2, as the code has it.  When every grader of the course has a
    student object, as the comment in the code says, and a user is a
    student and a grader of the course at most once, the graded, the
    not-graded and the not-submitted count of an assignment add up to the
    number of students in scope, the users that [has_student] reports;
    the first two count the submitted rows of the assignment that are
    graded and that are not.  The rows need not have been created. *)
Theorem counters_cover_eligible_students :
  Scope.unique_together db (assignment_course a) ->
  Scope.graders_have_student_objects db (assignment_course a) ->
  Models.graded_submissions_count db a
  + Models.not_graded_submissions_count db a
  + Models.not_submitted_submissions_count db a
  = count (Scope.eligible_students db (assignment_course a))
  /\ Models.graded_submissions_count db a
     = count (filter (fun s => submitted s && graded s)
                     (Models.assignment_submissions db a))
  /\ Models.not_graded_submissions_count db a
     = count (filter (fun s => submitted s && negb (graded s))
                     (Models.assignment_submissions db a)).
Proof.
  intros Hunique Hobj. split; [|split].
  - rewrite counters_add_up. unfold Models.students_in_course.
    now apply students_less_graders.
  - unfold Models.graded_submissions_count, Models.graded_submissions_set.
    f_equal. apply filter_ext. intros s.
    now destruct (submitted s), (graded s).
  - unfold Models.not_graded_submissions_count,
      Models.not_graded_submissions_set.
    f_equal. apply filter_ext. intros s.
    now destruct (submitted s), (graded s).
Qed.

End CounterFacts.

(** In the sample course the grader has no student object.  Alice is the
    one student in scope and her submission exists, yet the three counts
    add up to none. *)
Lemma counters_miss_a_student :
  ~ ((forall u,
        In u (Scope.eligible_students Sample.graded_db
                (assignment_course Sample.hw1)) ->
        exists s,
          In s (Models.assignment_submissions Sample.graded_db Sample.hw1)
          /\ user_eqb (student s) u = true) ->
     Models.graded_submissions_count Sample.graded_db Sample.hw1
     + Models.not_graded_submissions_count Sample.graded_db Sample.hw1
     + Models.not_submitted_submissions_count Sample.graded_db Sample.hw1
     = count (Scope.eligible_students Sample.graded_db
                (assignment_course Sample.hw1))).
Proof.
  intros Hclaim.
  assert (Hrows : forall u,
    In u (Scope.eligible_students Sample.graded_db
            (assignment_course Sample.hw1)) ->
    exists s,
      In s (Models.assignment_submissions Sample.graded_db Sample.hw1)
      /\ user_eqb (student s) u = true).
  { intros u [<- | []]. exists Sample.alice_hw1.
    split; [now left | reflexivity]. }
  specialize (Hclaim Hrows). discriminate Hclaim.
Qed.

(** The course in which Bob has a student object too: Alice is the one
    student in scope, and the counts add up to one. *)
Lemma counters_cover_eligible_students_sample :
  Models.graded_submissions_count Roster.course_db Sample.hw1
  + Models.not_graded_submissions_count Roster.course_db Sample.hw1
  + Models.not_submitted_submissions_count Roster.course_db Sample.hw1
  = count (Scope.eligible_students Roster.course_db
             (assignment_course Sample.hw1))
  /\ Models.graded_submissions_count Roster.course_db Sample.hw1
     = count (filter (fun s => submitted s && graded s)
                     (Models.assignment_submissions Roster.course_db
                        Sample.hw1))
  /\ Models.not_graded_submissions_count Roster.course_db Sample.hw1
     = count (filter (fun s => submitted s && negb (graded s))
                     (Models.assignment_submissions Roster.course_db
                        Sample.hw1)).
Proof.
  apply (counters_cover_eligible_students Roster.course_db Sample.hw1).
  - split; cbn; repeat constructor; cbn; intuition discriminate.
  - intros u [<- | []]. reflexivity.
Defined.

(** In the sample course the grader has no student object, and the
    subtraction goes below zero. *)
Example counters_of_graded_db :
  Models.graded_submissions_count Sample.graded_db Sample.hw1 = 1
  /\ Models.not_graded_submissions_count Sample.graded_db Sample.hw1 = 0
  /\ Models.not_submitted_submissions_count Sample.graded_db Sample.hw1 = -1.
Proof. repeat split. Qed.

(** ** Membership and roles *)

Section RoleFacts.

Variable db : Database.
Variable c : Course.
Variable u : User.

Lemma has_student_iff :
  Models.has_student db c u = true
  <-> filter_pk_exists (Models.course_students db c) u = true
      /\ Models.has_grader db c u = false.
Proof.
  unfold Models.has_student.
  rewrite andb_true_iff, negb_true_iff. reflexivity.
Qed.

Lemma get_role_admin :
  Models.has_admin db c u = true -> Authentication.get_role db c u = Authentication.admin.
Proof. unfold Authentication.get_role. now intros ->. Qed.

Lemma get_role_grader :
  Models.has_admin db c u = false -> Models.has_grader db c u = true ->
  Authentication.get_role db c u = Authentication.grader.
Proof. unfold Authentication.get_role. now intros -> ->. Qed.

(** C5, as the code has it.  The role query, which asks for admin, then
    grader, then student, reports an admin as admin and a grader who is
    no admin as grader, whatever student rows they have.  The student
    predicate itself gives way to grader membership only: it holds
    exactly for the users with a student row in the course who are not
    graders of it, administrators among them. *)
Theorem role_precedence :
  (Models.has_admin db c u = true ->
   Authentication.get_role db c u = Authentication.admin)
  /\ (Models.has_admin db c u = false -> Models.has_grader db c u = true ->
      Authentication.get_role db c u = Authentication.grader)
  /\ (Models.has_grader db c u = true -> Models.has_student db c u = false)
  /\ (Models.has_student db c u = true
      <-> filter_pk_exists (Models.course_students db c) u = true
          /\ Models.has_grader db c u = false)
  /\ (Authentication.get_role db c u = Authentication.student
      <-> Models.has_student db c u = true
          /\ Models.has_admin db c u = false).
Proof.
  split; [exact get_role_admin|].
  split; [exact get_role_grader|].
  split; [|split; [exact has_student_iff|]].
  - intros Hg. unfold Models.has_student. rewrite Hg. apply andb_false_r.
  - unfold Authentication.get_role, Models.has_student.
    destruct (Models.has_admin db c u), (Models.has_grader db c u),
      (filter_pk_exists (Models.course_students db c) u); cbn;
      split; try discriminate; try (intros [? ?]; discriminate); auto.
Qed.

End RoleFacts.

(** The student predicate does not look at the administrators. *)
Lemma has_student_ignores_administrators (db : Database)
  (admins : list (Course * User)) (c : Course) (u : User) :
  Models.has_student
    {| administrators := admins;
       graders := graders db;
       students := students db;
       assignments := assignments db;
       submissions := submissions db |} c u
  = Models.has_student db c u.
Proof. reflexivity. Qed.

(** Carol administers cs101 and is enrolled in it: she resolves to admin,
    and the student predicate holds for her all the same. *)
Lemma admin_student_is_still_student :
  ~ (Models.has_admin Sample.admin_student_db Sample.cs101 Sample.carol = true ->
     filter_pk_exists
       (Models.course_students Sample.admin_student_db Sample.cs101)
       Sample.carol = true ->
     Models.has_student Sample.admin_student_db Sample.cs101 Sample.carol
     = false).
Proof. intros Hclaim. discriminate (Hclaim eq_refl eq_refl). Qed.

Lemma role_precedence_sample :
  Authentication.get_role Sample.admin_student_db Sample.cs101 Sample.carol
  = Authentication.admin
  /\ Models.has_student Sample.admin_student_db Sample.cs101 Sample.carol
     = true.
Proof.
  pose proof (role_precedence Sample.admin_student_db Sample.cs101
                Sample.carol) as (Hadmin & _ & _ & Hstudent & _).
  split.
  - apply Hadmin. reflexivity.
  - apply Hstudent. split; reflexivity.
Defined.

(** ** Counters scoped by a grader *)

Section GraderScopeFacts.

Variable db : Database.
Variable a : Assignment.
Variable g : Grader.

Lemma eqb_true_r (b : bool) : Bool.eqb b true = true <-> b = true.
Proof. destruct b; cbn; intuition congruence. Qed.


Lemma graded_by_grader_count :
  Models.graded_submissions_count_by_grader db a (Some g) None
  = inr (count (Models.graded_submissions_set_by_grader db a (grader_user g))).
Proof. reflexivity. Qed.

Lemma not_graded_by_grader_count :
  Models.not_graded_submissions_count_by_grader db a (Some g) None
  = inr (count (Models.not_graded_submissions_set_by_grader db a g)).
Proof. reflexivity. Qed.


(** The three counters scoped by a grader add up to the size of the
    roster, again by subtraction. *)
Lemma counters_by_grader_add_up :
  exists n_graded n_not_graded n_not_submitted,
    Models.graded_submissions_count_by_grader db a (Some g) None
    = inr n_graded
    /\ Models.not_graded_submissions_count_by_grader db a (Some g) None
       = inr n_not_graded
    /\ Models.not_submitted_submissions_count_by_grader db a (Some g) None
       = inr n_not_submitted
    /\ n_graded + n_not_graded + n_not_submitted
       = count (Models.grader_students db g).
Proof.
  do 3 eexists. repeat split. cbn. lia.
Qed.

End GraderScopeFacts.


Example graded_count_by_bob :
  Models.graded_submissions_count_by_grader Sample.graded_db Sample.hw1
    (Some Sample.bob_grader) None = inr 1
  /\ Models.Grader_graded_submissions_count Sample.graded_db Sample.bob_grader
     = 1
  /\ Scope.roster Sample.graded_db Sample.bob_grader = [].
Proof. repeat split. Qed.

(* ===================================================================== *)
(** * Facts about sga/views.py *)
(* ===================================================================== *)

Import Views.

(** ** The lookups *)

Lemma get_or_create_spec (now' : Z) (u : User) (a : Assignment)
  (db : Database) :
  match get_or_create now' u a db with
  | (inr (obj, created), db') =>
      (created = false /\ db' = db /\ In obj (submissions db))
      \/ (created = true
          /\ obj = new_submission (next_pk (submissions db)) now' u a
          /\ db' = set_submissions db (submissions db ++ [obj]))
  | (inl e, db') => db' = db
  end.
Proof.
  unfold get_or_create.
  destruct (objects_get _ (submissions db)) as [e|obj] eqn:Hget.
  - destruct e; auto.
  - left. apply objects_get_found in Hget. tauto.
Qed.

Lemma lookup_as_staff_raises {FormData : Type} (request : Request FormData)
  (aid sid : string) (db : Database) (e : exn) :
  fst (lookup_as_staff request aid sid db) = inl e ->
  lookup_as_staff request aid sid db = (inl e, db).
Proof.
  unfold lookup_as_staff, bind, query, ret.
  destruct (objects_get _ (assignments db)) as [e1|a]; cbn;
    [now intros [= ->]|].
  destruct (objects_get _ (students db)) as [e2|st]; cbn;
    [now intros [= ->]|].
  pose proof (get_or_create_spec (now request) (student_user st) a db) as Hgc.
  destruct (get_or_create _ _ _ db) as [[e3|[obj created]] db']; cbn.
  - intros [= ->]. now subst.
  - discriminate.
Qed.

Lemma lookup_as_student_raises {FormData : Type} (request : Request FormData)
  (aid : string) (db : Database) (e : exn) :
  fst (lookup_as_student request aid db) = inl e ->
  lookup_as_student request aid db = (inl e, db).
Proof.
  unfold lookup_as_student, bind, query, ret.
  destruct (objects_get _ (assignments db)) as [e1|a]; cbn;
    [now intros [= ->]|].
  pose proof (get_or_create_spec (now request) (user request) a db) as Hgc.
  destruct (get_or_create _ _ _ db) as [[e3|[obj created]] db']; cbn.
  - intros [= ->]. now subst.
  - discriminate.
Qed.

Lemma lookup_as_staff_returns {FormData : Type} (request : Request FormData)
  (aid sid : string) (db mid : Database) (a : Assignment) (st : Student)
  (sub : Submission) :
  lookup_as_staff request aid sid db = (inr (a, st, sub), mid) ->
  In sub (submissions mid)
  /\ ((In sub (submissions db) /\ mid = db)
      \/ (sub = new_submission (next_pk (submissions db)) (now request)
                  (student_user st) a
          /\ mid = set_submissions db (submissions db ++ [sub]))).
Proof.
  unfold lookup_as_staff, bind, query, ret.
  destruct (objects_get _ (assignments db)) as [e1|a']; cbn; [discriminate|].
  destruct (objects_get _ (students db)) as [e2|st']; cbn; [discriminate|].
  pose proof (get_or_create_spec (now request) (student_user st') a' db) as Hgc.
  destruct (get_or_create _ _ _ db) as [[e3|[obj created]] db']; cbn;
    [discriminate|].
  intros [= -> -> -> ->].
  destruct Hgc as [(_ & -> & Hin) | (_ & Hnew & ->)].
  - split; [assumption | left; split; [assumption | reflexivity]].
  - split; [cbn; apply in_or_app; right; now left | right; split; auto].
Qed.

Lemma lookup_as_student_returns {FormData : Type} (request : Request FormData)
  (aid : string) (db mid : Database) (a : Assignment) (sub : Submission) :
  lookup_as_student request aid db = (inr (a, sub), mid) ->
  In sub (submissions mid)
  /\ ((In sub (submissions db) /\ mid = db)
      \/ (sub = new_submission (next_pk (submissions db)) (now request)
                  (user request) a
          /\ mid = set_submissions db (submissions db ++ [sub]))).
Proof.
  unfold lookup_as_student, bind, query, ret.
  destruct (objects_get _ (assignments db)) as [e1|a']; cbn; [discriminate|].
  pose proof (get_or_create_spec (now request) (user request) a' db) as Hgc.
  destruct (get_or_create _ _ _ db) as [[e3|[obj created]] db']; cbn;
    [discriminate|].
  intros [= -> -> ->].
  destruct Hgc as [(_ & -> & Hin) | (_ & Hnew & ->)].
  - split; [assumption | left; split; [assumption | reflexivity]].
  - split; [cbn; apply in_or_app; right; now left | right; split; auto].
Qed.

(** ** Lookup failures *)

(** A bare [except] that raises [Http404] turns whatever its body raises
    into [Http404], and lets a result through. *)
Lemma bare_except_catches_all {A : Type} (body : View A) (db : Database) :
  try_except body (fun _ => raise Http404) db
  = match body db with
    | (inl _, db') => (inl Http404, db')
    | (inr a, db') => (inr a, db')
    end.
Proof. unfold try_except, raise. now destruct (body db) as [[e|a] db']. Qed.

Section LookupFailure.

Context {FormData : Type}.
Variable student_form_is_valid : FormData -> Submission -> bool.
Variable student_form_fields : FormData -> Submission -> Submission.
Variable grader_form_is_valid : FormData -> Submission -> bool.
Variable grader_form_fields : FormData -> Submission -> Submission.

(** C9. Whatever exception the lookup step of a submission view raises,
    the view raises [Http404] and nothing else, and the database is as it
    was. *)
Theorem lookup_failure_is_not_found (c : Call FormData) (db : Database)
  (e : exn) :
  lookup_raises c db = Some e ->
  run student_form_is_valid student_form_fields grader_form_is_valid
      grader_form_fields c db
  = (inl Http404, db).
Proof.
  destruct c as [r a | r a u | r a u]; cbn [lookup_raises run]; intros Hraise.
  - destruct (fst (lookup_as_student r a db)) as [e'|] eqn:Hl; [|discriminate].
    apply lookup_as_student_raises in Hl.
    unfold view_submission_as_student, bind, try_except. now rewrite Hl.
  - destruct (fst (lookup_as_staff r a u db)) as [e'|] eqn:Hl; [|discriminate].
    apply lookup_as_staff_raises in Hl.
    unfold view_submission_as_staff, bind, try_except. now rewrite Hl.
  - destruct (fst (lookup_as_staff r a u db)) as [e'|] eqn:Hl; [|discriminate].
    apply lookup_as_staff_raises in Hl.
    unfold unsubmit_submission, bind, try_except. now rewrite Hl.
Qed.

(** The lookups raise nothing but the two exceptions of [objects.get]. *)
Lemma lookup_raises_kinds (c : Call FormData) (db : Database) (e : exn) :
  lookup_raises c db = Some e ->
  e = DoesNotExist \/ e = MultipleObjectsReturned.
Proof.
  destruct c as [r a | r a u | r a u]; cbn [lookup_raises];
    unfold lookup_as_student, lookup_as_staff, bind, query, ret, get_or_create;
    repeat match goal with
           | |- context [objects_get ?k ?rows] =>
               let H := fresh "Hget" in
               destruct (objects_get k rows) as [[]|] eqn:H; cbn;
               try discriminate;
               try (apply objects_get_raises in H; destruct H; discriminate)
           end;
    intros [= <-]; auto.
Qed.

End LookupFailure.

(** Alice is enrolled in two courses, so the staff view finds two student
    rows for her username: [MultipleObjectsReturned] becomes a 404. *)
Lemma lookup_failure_sample :
  lookup_raises (as_staff Sample.bob_posts "hw1" "alice")
    Sample.two_courses_db = Some MultipleObjectsReturned
  /\ run Sample.student_valid Sample.student_fields Sample.grader_valid
         Sample.grader_fields (as_staff Sample.bob_posts "hw1" "alice")
         Sample.two_courses_db
     = (inl Http404, Sample.two_courses_db).
Proof.
  split; [reflexivity|].
  apply (lookup_failure_is_not_found Sample.student_valid
           Sample.student_fields Sample.grader_valid Sample.grader_fields
           (as_staff Sample.bob_posts "hw1" "alice") Sample.two_courses_db
           MultipleObjectsReturned).
  reflexivity.
Defined.

Example unknown_assignment_is_not_found :
  fst (unsubmit_submission Sample.carol_gets "hw9" "alice" Sample.graded_db)
  = inl Http404.
Proof. reflexivity. Qed.

(** ** Saving *)

Lemma save_eq (now' : Z) (s : Submission) (db : Database) :
  save now' s db = (inr (set_updated_on s now'), snd (save now' s db)).
Proof. reflexivity. Qed.

(** After a save, a row is the saved instance or an old row of another
    primary key. *)
Lemma save_rows (now' : Z) (s : Submission) (db : Database) (r : Submission) :
  In r (submissions (snd (save now' s db))) ->
  r = set_updated_on s now' \/ (In r (submissions db) /\ pk r <> pk s).
Proof.
  unfold save; cbn.
  destruct (existsb _ (submissions db)) eqn:Hex.
  - intros Hin. apply in_map_iff in Hin as (x & <- & Hx).
    destruct (pk x =? pk s) eqn:Hpk; [now left|].
    right. split; [assumption | now apply Z.eqb_neq].
  - intros Hin. apply in_app_or in Hin as [Hin | [<- | []]]; [|now left].
    right. split; [assumption|].
    intros Heq. apply not_true_iff_false in Hex. apply Hex.
    apply existsb_exists. exists r. split; [assumption|].
    now apply Z.eqb_eq.
Qed.

(** The saved instance is among the rows. *)
Lemma save_stored (now' : Z) (s : Submission) (db : Database) :
  In (set_updated_on s now') (submissions (snd (save now' s db))).
Proof.
  unfold save; cbn.
  destruct (existsb _ (submissions db)) eqn:Hex.
  - apply existsb_exists in Hex as (x & Hx & Hpk).
    apply in_map_iff. exists x. now rewrite Hpk.
  - apply in_or_app. right. now left.
Qed.

(** ** The admin unsubmit *)



Example unsubmit_keeps_grade :
  map (fun s => (submitted s, graded s, grade s, feedback s))
      (submissions (snd (unsubmit_submission Sample.carol_gets "hw1" "alice"
                           Sample.graded_db)))
  = [(false, false, Some 85, Some "well argued")].
Proof. reflexivity. Qed.

(** ** The invariant of the status columns *)

Lemma new_submission_consistent (pk' now' : Z) (u : User) (a : Assignment) :
  status_consistent (new_submission pk' now' u a).
Proof. split; cbn; discriminate. Qed.

Lemma save_consistent (now' : Z) (s : Submission) (db : Database) :
  Logic.consistent db -> status_consistent s ->
  Logic.consistent (snd (save now' s db)).
Proof.
  intros Hdb Hs r Hr. apply save_rows in Hr as [-> | [Hr _]].
  - exact Hs.
  - now apply Hdb.
Qed.

(** Two saves of the same primary key in a row: only the second instance
    has to satisfy the invariant. *)
Lemma save_twice_consistent (n1 n2 : Z) (s1 s2 : Submission) (db : Database) :
  Logic.consistent db -> pk s2 = pk s1 -> status_consistent s2 ->
  Logic.consistent (snd (save n2 s2 (snd (save n1 s1 db)))).
Proof.
  intros Hdb Hpk Hs r Hr.
  apply save_rows in Hr as [-> | [Hr Hne]]; [exact Hs|].
  apply save_rows in Hr as [-> | [Hr _]].
  - elim Hne. now rewrite Hpk.
  - now apply Hdb.
Qed.

Lemma added_row_consistent (db : Database) (s : Submission) :
  Logic.consistent db -> status_consistent s ->
  Logic.consistent (set_submissions db (submissions db ++ [s])).
Proof.
  intros Hdb Hs r Hr. cbn in Hr.
  apply in_app_or in Hr as [Hr | [<- | []]]; [now apply Hdb | exact Hs].
Qed.

Section Invariant.

Context {FormData : Type}.
Variable student_form_is_valid : FormData -> Submission -> bool.
Variable student_form_fields : FormData -> Submission -> Submission.
Variable grader_form_is_valid : FormData -> Submission -> bool.
Variable grader_form_fields : FormData -> Submission -> Submission.

Hypothesis student_form_keeps_grading : Logic.keeps_grading student_form_fields.
Hypothesis grader_form_keeps_submission :
  Logic.keeps_submission grader_form_fields.

Lemma lookup_as_student_consistent (request : Request FormData)
  (aid : string) (db : Database) :
  Logic.consistent db ->
  match lookup_as_student request aid db with
  | (inr (_, sub), mid) => Logic.consistent mid /\ status_consistent sub
  | (inl _, mid) => Logic.consistent mid
  end.
Proof.
  intros Hdb.
  destruct (lookup_as_student request aid db) as [[e|[a sub]] mid] eqn:Hl.
  - rewrite (lookup_as_student_raises request aid db e) in Hl
      by now rewrite Hl.
    now injection Hl as <-.
  - apply lookup_as_student_returns in Hl
      as [_ [[Hin ->] | [-> ->]]].
    + split; [assumption | now apply Hdb].
    + split; [|apply new_submission_consistent].
      apply added_row_consistent;
        [assumption | apply new_submission_consistent].
Qed.

Lemma lookup_as_staff_consistent (request : Request FormData)
  (aid sid : string) (db : Database) :
  Logic.consistent db ->
  match lookup_as_staff request aid sid db with
  | (inr (_, _, sub), mid) => Logic.consistent mid /\ status_consistent sub
  | (inl _, mid) => Logic.consistent mid
  end.
Proof.
  intros Hdb.
  destruct (lookup_as_staff request aid sid db) as [[e|[[a st] sub]] mid]
    eqn:Hl.
  - rewrite (lookup_as_staff_raises request aid sid db e) in Hl
      by now rewrite Hl.
    now injection Hl as <-.
  - apply lookup_as_staff_returns in Hl
      as [_ [[Hin ->] | [-> ->]]].
    + split; [assumption | now apply Hdb].
    + split; [|apply new_submission_consistent].
      apply added_row_consistent;
        [assumption | apply new_submission_consistent].
Qed.

(** A submitted form sets [submitted] together with [submitted_at]. *)
Lemma view_submission_as_student_consistent (request : Request FormData)
  (aid : string) (db : Database) :
  Logic.consistent db ->
  Logic.consistent
    (snd (view_submission_as_student student_form_is_valid
            student_form_fields request aid db)).
Proof.
  intros Hdb. pose proof (lookup_as_student_consistent request aid db Hdb) as Hl.
  unfold view_submission_as_student, bind, try_except.
  destruct (lookup_as_student request aid db) as [[e|[a sub]] mid];
    [exact Hl|].
  destruct Hl as [Hmid Hsub]. cbn [snd].
  destruct (method request); [exact Hmid|].
  destruct (student_form_is_valid (data request) sub); [|exact Hmid].
  unfold form_save. rewrite save_eq. rewrite save_eq. cbn [ret snd].
  apply save_twice_consistent; [assumption | reflexivity |].
  destruct (student_form_keeps_grading (data request) sub) as (Hg & Hat & Hby).
  destruct Hsub as [Hgraded _].
  split; cbn.
  - rewrite Hg, Hat, Hby. exact Hgraded.
  - discriminate.
Qed.

(** A valid marking sets [graded] together with [graded_at] and
    [graded_by]. *)
Lemma view_submission_as_staff_consistent (request : Request FormData)
  (aid sid : string) (db : Database) :
  Logic.consistent db ->
  Logic.consistent
    (snd (view_submission_as_staff grader_form_is_valid grader_form_fields
            request aid sid db)).
Proof.
  intros Hdb.
  pose proof (lookup_as_staff_consistent request aid sid db Hdb) as Hl.
  unfold view_submission_as_staff, bind, try_except.
  destruct (lookup_as_staff request aid sid db) as [[e|[[a st] sub]] mid];
    [exact Hl|].
  destruct Hl as [Hmid Hsub]. cbn [snd fst].
  unfold next_not_graded_submission, query.
  destruct (method request); [exact Hmid|].
  destruct (grader_form_is_valid (data request) sub); [|exact Hmid].
  unfold form_save. rewrite save_eq. rewrite save_eq. cbn [ret snd].
  apply save_twice_consistent; [assumption | reflexivity |].
  destruct (grader_form_keeps_submission (data request) sub) as (Hs & Hat).
  destruct Hsub as [_ Hsubmitted].
  split; cbn.
  - intros _. split; discriminate.
  - rewrite Hs, Hat. exact Hsubmitted.
Qed.

(** Clearing the flags cannot break the invariant. *)
Lemma unsubmit_submission_consistent (request : Request FormData)
  (aid sid : string) (db : Database) :
  Logic.consistent db ->
  Logic.consistent (snd (unsubmit_submission request aid sid db)).
Proof.
  intros Hdb.
  pose proof (lookup_as_staff_consistent request aid sid db Hdb) as Hl.
  unfold unsubmit_submission, bind, try_except.
  destruct (lookup_as_staff request aid sid db) as [[e|[[a st] sub]] mid];
    [exact Hl|].
  destruct Hl as [Hmid _]. cbn [snd].
  rewrite save_eq. cbn [ret snd].
  apply save_consistent; [assumption|].
  split; cbn; discriminate.
Qed.

Lemma run_consistent (c : Call FormData) (db : Database) :
  Logic.consistent db ->
  Logic.consistent
    (snd (run student_form_is_valid student_form_fields grader_form_is_valid
              grader_form_fields c db)).
Proof.
  destruct c; cbn [run].
  - apply view_submission_as_student_consistent.
  - apply view_submission_as_staff_consistent.
  - apply unsubmit_submission_consistent.
Qed.

(** C7. In every state that the three submission views can reach from a
    database without submissions, a graded submission has its [graded_at]
    and its [graded_by], and a submitted one has its [submitted_at];
    provided the student form leaves the grading columns alone and the
    grader form the submission columns. *)
Theorem reachable_status_consistent (db : Database) (s : Submission) :
  reachable student_form_is_valid student_form_fields grader_form_is_valid
            grader_form_fields db ->
  In s (submissions db) ->
  (graded s = true -> graded_at s <> None /\ graded_by s <> None)
  /\ (submitted s = true -> submitted_at s <> None).
Proof.
  intros Hreach. revert s.
  change (Logic.consistent db).
  induction Hreach as [db Hnone | db c _ IH].
  - intros s Hs. rewrite Hnone in Hs. destruct Hs.
  - now apply run_consistent.
Qed.

End Invariant.

Lemma rows_after_grading :
  submissions Sample.after_grading = [Sample.alice_graded].
Proof. vm_compute. reflexivity. Qed.

(** Alice submits her essay and Bob grades it: the row that results is
    reachable and has all three stamps. *)
Lemma reachable_sample :
  In Sample.alice_graded (submissions Sample.after_grading)
  /\ (graded Sample.alice_graded = true ->
      graded_at Sample.alice_graded <> None
      /\ graded_by Sample.alice_graded <> None)
  /\ (submitted Sample.alice_graded = true ->
      submitted_at Sample.alice_graded <> None).
Proof.
  assert (Hin : In Sample.alice_graded (submissions Sample.after_grading))
    by (rewrite rows_after_grading; now left).
  split; [exact Hin|].
  apply (reachable_status_consistent Sample.student_valid
           Sample.student_fields Sample.grader_valid Sample.grader_fields)
    with (db := Sample.after_grading).
  - intros d s. repeat split.
  - intros d s. repeat split.
  - unfold Sample.after_grading. apply reachable_step.
    unfold Sample.after_submit. apply reachable_step.
    apply reachable_initial. reflexivity.
  - exact Hin.
Defined.

(** After an unsubmit the stamps of the grading stay behind with the flags
    cleared, which the invariant allows. *)
Example stale_stamps_after_unsubmit :
  map (fun s => (graded s, graded_at s, graded_by s))
      (submissions (snd (unsubmit_submission Sample.carol_gets "hw1" "alice"
                           Sample.after_grading)))
  = [(false, Some 300, Some Sample.bob)].
Proof. vm_compute. reflexivity. Qed.

(* ===================================================================== *)
(** * More facts about sga/backend/files.py *)
(* ===================================================================== *)

(** ** The extension that enters a key *)

Lemma rfind_from_bound (c : ascii) (s : string) (i acc : Z) :
  Py.rfind_from c s i acc = acc \/ i <= Py.rfind_from c s i acc.
Proof.
  revert i acc; induction s as [|d s IH]; intros i acc; cbn; [now left|].
  destruct (IH (i + 1) (if Ascii.eqb d c then i else acc)) as [-> | Hle].
  - destruct (Ascii.eqb d c); [right; lia | now left].
  - right. lia.
Qed.

(** No occurrence lies beyond the index that [rfind] returns. *)
Lemma rfind_from_last (c : ascii) (s : string) (i acc : Z) (j : nat) :
  String.get j s = Some c -> i + Z.of_nat j <= Py.rfind_from c s i acc.
Proof.
  revert i acc j; induction s as [|d s IH]; intros i acc j; cbn;
    [discriminate|].
  destruct j as [|j].
  - intros [= ->]. rewrite Ascii.eqb_refl.
    destruct (rfind_from_bound c s (i + 1) i) as [-> | Hle]; lia.
  - intros Hget.
    specialize (IH (i + 1) (if Ascii.eqb d c then i else acc) j Hget). lia.
Qed.

(** What [rfind] returns is the start value or the index of an
    occurrence. *)
Lemma rfind_from_hit (c : ascii) (s : string) (i acc : Z) :
  Py.rfind_from c s i acc = acc
  \/ (i <= Py.rfind_from c s i acc
      /\ String.get (Z.to_nat (Py.rfind_from c s i acc - i)) s = Some c).
Proof.
  revert i acc; induction s as [|d s IH]; intros i acc; cbn; [now left|].
  destruct (IH (i + 1) (if Ascii.eqb d c then i else acc))
    as [-> | [Hle Hget]].
  - destruct (Ascii.eqb d c) eqn:Hd; [|now left].
    right. split; [lia|]. rewrite Z.sub_diag. cbn.
    apply Ascii.eqb_eq in Hd. now subst.
  - right. split; [lia|].
    replace (Z.to_nat (Py.rfind_from c s (i + 1)
                         (if Ascii.eqb d c then i else acc) - i))
      with (S (Z.to_nat (Py.rfind_from c s (i + 1)
                           (if Ascii.eqb d c then i else acc) - (i + 1))))
      by lia.
    exact Hget.
Qed.

Lemma get_beyond (s : string) (n : nat) :
  (String.length s <= n)%nat -> String.get n s = None.
Proof.
  revert n; induction s as [|c s IH]; intros [|n]; cbn; auto; try lia.
  intros Hn. apply IH. lia.
Qed.

(** X5. The extension that the builders take from the uploaded file name
    holds no slash, and when it is not empty it begins with a dot: the
    file name cannot add a path component to the key. *)
Theorem extension_has_no_slash (filename : string) :
  (forall n, String.get n (snd (Files.splitext filename)) <> Some "/"%char)
  /\ (snd (Files.splitext filename) = ""
      \/ String.get 0 (snd (Files.splitext filename)) = Some "."%char).
Proof.
  unfold Files.splitext.
  destruct (_ && _) eqn:Hcond; cbn [snd];
    [|split; [intros n; destruct n; discriminate | now left]].
  apply andb_true_iff in Hcond as [Hgt _]. apply Z.gtb_lt in Hgt.
  unfold Py.slice_from, Py.rfind in *.
  set (dot := Py.rfind_from "." filename 0 (-1)) in *.
  set (sep := Py.rfind_from "/" filename 0 (-1)) in *.
  assert (Hsep : -1 <= sep).
  { destruct (rfind_from_bound "/" filename 0 (-1)) as [H | H];
      fold sep in H; lia. }
  destruct (rfind_from_hit "." filename 0 (-1)) as [Hnone | [_ Hdot]];
    fold dot in Hnone || fold dot in Hdot; [lia|].
  rewrite Z.sub_0_r in Hdot.
  assert (Hlen : (Z.to_nat dot < String.length filename)%nat).
  { destruct (Nat.lt_ge_cases (Z.to_nat dot) (String.length filename))
      as [H | H]; [assumption|].
    apply get_beyond in H. congruence. }
  split.
  - intros n Hget.
    destruct (Nat.lt_ge_cases n (String.length filename - Z.to_nat dot))
      as [Hn | Hn].
    + rewrite substring_correct1 in Hget by assumption.
      pose proof (rfind_from_last "/" filename 0 (-1) _ Hget) as Hlast.
      fold sep in Hlast. lia.
    + rewrite substring_correct2 in Hget by assumption. discriminate.
  - right. rewrite substring_correct1 by lia. exact Hdot.
Qed.

(** ** Sanitising keys *)

Section SanitisingFacts.

Variable pattern : ascii -> bool.

Lemma append_assoc (a b c : string) :
  ((a ++ b) ++ c)%string = (a ++ (b ++ c))%string.
Proof. induction a as [|x a IH]; cbn; congruence. Qed.

Lemma append_length (a b : string) :
  String.length (a ++ b) = (String.length a + String.length b)%nat.
Proof. induction a as [|x a IH]; cbn; congruence. Qed.

Lemma re_sub_app (replace_with a b : string) :
  Files.re_sub pattern replace_with (a ++ b)
  = (Files.re_sub pattern replace_with a
     ++ Files.re_sub pattern replace_with b)%string.
Proof.
  induction a as [|c a IH]; cbn; [reflexivity|].
  destruct (pattern c); cbn; rewrite IH; [|reflexivity].
  now rewrite append_assoc.
Qed.

(** X3. For a replacement without a backslash, sanitising a
    concatenation is sanitising its parts: the key is made of the
    sanitised course id, separator, assignment id, user name, assignment
    name and extension, in that order. *)
Theorem convert_illegal_S3_chars_app (replace_with a b : string) :
  Keys.literal replace_with = true ->
  Files.convert_illegal_S3_chars pattern (a ++ b) replace_with
  = (Files.convert_illegal_S3_chars pattern a replace_with
     ++ Files.convert_illegal_S3_chars pattern b replace_with)%string.
Proof. intros _. unfold Files.convert_illegal_S3_chars. apply re_sub_app. Qed.

Lemma re_sub_valid (replace_with s : string) :
  Keys.all_valid pattern s = true ->
  Files.re_sub pattern replace_with s = s.
Proof.
  induction s as [|c s IH]; cbn; [reflexivity|].
  intros H. apply andb_true_iff in H as [Hc Hs].
  apply negb_true_iff in Hc. rewrite Hc. now rewrite IH.
Qed.

(** X2. A second pass of the sanitiser changes nothing, as long as the
    replacement has no backslash and is free of invalid characters or is
    one character, as the default underscore is. *)
Theorem convert_illegal_S3_chars_idempotent (replace_with path : string) :
  Keys.literal replace_with = true ->
  Keys.all_valid pattern replace_with = true
  \/ String.length replace_with = 1%nat ->
  Files.convert_illegal_S3_chars pattern
    (Files.convert_illegal_S3_chars pattern path replace_with) replace_with
  = Files.convert_illegal_S3_chars pattern path replace_with.
Proof.
  intros _ Hrepl.
  assert (Hfix : Files.re_sub pattern replace_with replace_with = replace_with).
  { destruct Hrepl as [Hvalid | Hone]; [now apply re_sub_valid|].
    destruct replace_with as [|c [|d r]]; try discriminate.
    cbn. now destruct (pattern c). }
  induction path as [|c path IH]; [reflexivity|].
  unfold Files.convert_illegal_S3_chars in *. cbn.
  destruct (pattern c) eqn:Hc.
  - now rewrite re_sub_app, Hfix, IH.
  - cbn. now rewrite Hc, IH.
Qed.

(** X1. When the underscore itself is a valid character, no character of
    an upload key matches the pattern of the invalid ones. *)
Theorem upload_key_is_clean (r : Files.Role) (instance : Submission)
  (filename : string) (n : nat) (c : ascii) :
  pattern "_"%char = false ->
  String.get n (Files.upload_path pattern r instance filename) = Some c ->
  pattern c = false.
Proof.
  intros Hsub. rewrite upload_path_template.
  now apply substitute_invalid_clean.
Qed.

(** X4. The student key and the grader key of one submission and file
    name are never the same: the student key is one character longer,
    whatever the pattern replaces. *)
Theorem student_and_grader_keys_differ (instance : Submission)
  (filename : string) :
  String.length
    (Files.student_submission_file_path pattern instance filename)
  = S (String.length
         (Files.grader_submission_file_path pattern instance filename))
  /\ Files.student_submission_file_path pattern instance filename
     <> Files.grader_submission_file_path pattern instance filename.
Proof.
  assert (Hlen :
    String.length
      (Files.student_submission_file_path pattern instance filename)
    = S (String.length
           (Files.grader_submission_file_path pattern instance filename))).
  { change (String.length
              (Files.upload_path pattern Files.student_role instance filename)
            = S (String.length
                   (Files.upload_path pattern Files.grader_role instance
                      filename))).
    rewrite !upload_path_template, !substitute_invalid_length.
    unfold Files.key_template. rewrite !append_length. cbn. lia. }
  split; [exact Hlen|].
  intros Heq. rewrite Heq in Hlen. lia.
Qed.

End SanitisingFacts.

Lemma convert_illegal_S3_chars_idempotent_sample :
  Files.convert_illegal_S3_chars Sample.sample_pattern
    (Files.convert_illegal_S3_chars Sample.sample_pattern "a#b/c d$.txt" "_")
    "_"
  = Files.convert_illegal_S3_chars Sample.sample_pattern "a#b/c d$.txt" "_".
Proof.
  apply (convert_illegal_S3_chars_idempotent Sample.sample_pattern "_"
           "a#b/c d$.txt").
  - reflexivity.
  - left. reflexivity.
Defined.

Lemma convert_illegal_S3_chars_app_sample :
  Files.convert_illegal_S3_chars Sample.sample_pattern ("a#b" ++ "/c d$") "_"
  = (Files.convert_illegal_S3_chars Sample.sample_pattern "a#b" "_"
     ++ Files.convert_illegal_S3_chars Sample.sample_pattern "/c d$" "_")%string.
Proof.
  apply (convert_illegal_S3_chars_app Sample.sample_pattern "_" "a#b"
           "/c d$").
  reflexivity.
Defined.

Lemma upload_key_is_clean_sample :
  String.get 4 (Files.upload_path Sample.sample_pattern Files.student_role
                  Sample.alice_hw1 "es#say.p$f") = Some "1"%char
  /\ Sample.sample_pattern "1"%char = false.
Proof.
  split; [reflexivity|].
  apply (upload_key_is_clean Sample.sample_pattern Files.student_role
           Sample.alice_hw1 "es#say.p$f" 4 "1"%char); reflexivity.
Defined.

(** ** What the zip generator leaves behind *)

Section ZipBufferFacts.

Variable local_file_record : string -> bytes -> bytes.
Variable end_record : list Files.ZipInfo -> Z -> bytes.

(** X6. Whatever the submissions, the generator leaves in the buffer the
    end record of an empty archive and nothing else: the [with] block
    closes the archive also when the first [writestr] has failed, and no
    entry is ever written. *)
Theorem archive_is_closed_on_failure (submissions : list Submission) :
  Keys.left_in_buffer local_file_record end_record submissions
  = end_record [] 0.
Proof.
  unfold Keys.left_in_buffer, Files.submissions_zip_generator,
    Files.with_ZipFile, Files.gbind, Files.close, Files.initial_heap.
  destruct submissions as [|s rest]; cbn [Files.for_each].
  - cbn. now rewrite skipn_nil, app_nil_r.
  - unfold Files.gbind, Files.read.
    destruct (student_document s) as [f|]; cbn;
      now rewrite skipn_nil, app_nil_r.
Qed.

End ZipBufferFacts.

(* ===================================================================== *)
(** * More facts about sga/models.py *)
(* ===================================================================== *)

(** ** When a grade is shown *)

Lemma string_of_uint_head (d : Decimal.uint) :
  exists c r, NilZero.string_of_uint d = String c r /\ c <> "("%char.
Proof.
  destruct d; cbn; do 2 eexists; (split; [reflexivity | discriminate]).
Qed.

Lemma str_of_int_head (n : Z) :
  exists c r, str_of_int n = String c r /\ c <> "("%char.
Proof.
  unfold str_of_int. destruct (Z.to_int n) as [d | d].
  - apply string_of_uint_head.
  - cbn. do 2 eexists. split; [reflexivity | discriminate].
Qed.

(** X7. [grade_display] reads [(Not Graded)] exactly when the grade is
    absent or zero; any other grade is shown as a number. *)
Theorem grade_display_not_graded_iff (s : Submission) :
  Models.grade_display s = "(Not Graded)"
  <-> grade s = None \/ grade s = Some 0.
Proof.
  rewrite grade_display_cases. split.
  - destruct (grade s) as [g|]; [|now left].
    destruct (g =? 0) eqn:Hg; [apply Z.eqb_eq in Hg; subst; now right|].
    destruct (str_of_int_head g) as (c & r & -> & Hc). cbn.
    intros [= Hhead _]. now elim Hc.
  - intros [-> | ->]; reflexivity.
Qed.

(** ** The students in scope *)

(** The sample course in which Bob has a student object: two students
    less one grader leave Alice, the one user that [has_student]
    reports. *)
Lemma students_in_course_eligible_sample :
  Models.students_in_course Roster.course_db Sample.hw1
  = count (Scope.eligible_students Roster.course_db
             (assignment_course Sample.hw1)).
Proof.
  apply (students_in_course_eligible Roster.course_db Sample.hw1).
  - split; cbn; repeat constructor; cbn; intuition discriminate.
  - intros u [<- | []]. reflexivity.
Defined.

Lemma not_submitted_counts_rows_sample :
  Models.not_submitted_submissions_count Roster.course_db Sample.hw1
  = count (filter (fun s => negb (submitted s))
                  (Models.assignment_submissions Roster.course_db Sample.hw1)).
Proof.
  apply (not_submitted_counts_rows Roster.course_db Sample.hw1).
  reflexivity.
Defined.

(** ** Course totals and assignment totals *)

Lemma sum_add {A : Type} (f g : A -> Z) (l : list A) :
  Totals.sum (map (fun a => f a + g a) l)
  = Totals.sum (map f l) + Totals.sum (map g l).
Proof. induction l as [|a l IH]; cbn; lia. Qed.

Lemma count_filter_cons {A : Type} (p : A -> bool) (x : A) (l : list A) :
  count (filter p (x :: l)) = (if p x then 1 else 0) + count (filter p l).
Proof. unfold count; cbn. destruct (p x); cbn [List.length]; lia. Qed.

Lemma sum_zero {A : Type} (l : list A) :
  Totals.sum (map (fun _ => 0) l) = 0.
Proof. induction l as [|a l IH]; cbn; lia. Qed.

Lemma sum_guard {A : Type} (b : bool) (f : A -> Z) (l : list A) :
  Totals.sum (map (fun a => if b then f a else 0) l)
  = if b then Totals.sum (map f l) else 0.
Proof. destruct b; [reflexivity | apply sum_zero]. Qed.

(** A count over the submissions is the sum of the counts per assignment
    when every submission is counted for exactly as many assignments as
    the overall predicate says. *)
Lemma count_by_assignment (P : Submission -> bool)
  (Q : Assignment -> Submission -> bool) (scope : list Assignment)
  (rows : list Submission) :
  (forall s, In s rows ->
     Totals.sum (map (fun a => if Q a s then 1 else 0) scope)
     = if P s then 1 else 0) ->
  count (filter P rows)
  = Totals.sum (map (fun a => count (filter (Q a) rows)) scope).
Proof.
  induction rows as [|s rows IH]; intros Hone.
  - cbn. now rewrite sum_zero.
  - rewrite count_filter_cons.
    rewrite (map_ext _ (fun a => (if Q a s then 1 else 0)
                                 + count (filter (Q a) rows)))
      by (intros a; apply count_filter_cons).
    rewrite sum_add, Hone by now left.
    rewrite IH; [reflexivity|].
    intros s' Hs'. apply Hone. now right.
Qed.

Lemma course_eqb_trans (c d e : Course) :
  course_eqb c d = true -> course_eqb c e = course_eqb d e.
Proof. unfold course_eqb. intros H. apply Z.eqb_eq in H. now rewrite H. Qed.

(** Among the assignments of a course, a submission whose assignment
    resolves matches one when it is of that course and none otherwise. *)
Lemma one_assignment_matches (db : Database) (c : Course) (s : Submission) :
  Totals.assignments_resolve db -> In s (submissions db) ->
  Totals.sum (map (fun a => if assignment_eqb (assignment s) a then 1 else 0)
                  (Totals.course_assignments db c))
  = if course_eqb (assignment_course (assignment s)) c then 1 else 0.
Proof.
  intros Hres Hs. destruct (Hres s Hs) as (a0 & Hone & Hcourse).
  unfold Totals.course_assignments.
  rewrite <- (course_eqb_trans _ _ c Hcourse).
  revert Hone. generalize (assignments db) as l.
  assert (Hsum : forall l,
    Totals.sum (map (fun a => if assignment_eqb (assignment s) a then 1 else 0)
                    (filter (fun a => course_eqb (assignment_course a) c) l))
    = Totals.sum (map (fun a => if course_eqb (assignment_course a) c
                                then 1 else 0)
                      (filter (fun b => assignment_eqb (assignment s) b) l))).
  { induction l as [|a l IH]; [reflexivity|]. cbn.
    destruct (course_eqb (assignment_course a) c) eqn:Hc,
      (assignment_eqb (assignment s) a) eqn:Ha; cbn;
      rewrite ?Hc, ?Ha; lia. }
  intros l Hone. rewrite Hsum, Hone. cbn. lia.
Qed.

Section CourseTotals.

Variable db : Database.
Variable g : Grader.

Hypothesis resolved : Totals.assignments_resolve db.

(** X10. When every submission points to one assignment row, the
    submissions a grader has graded in the course are as many as the ones
    graded by that grader in each assignment of the course, added up. *)
Theorem graded_count_is_sum_over_assignments :
  Models.Grader_graded_submissions_count db g
  = Totals.sum
      (map (fun a => count (Models.graded_submissions_set_by_grader db a
                              (grader_user g)))
           (Totals.course_assignments db (grader_course g))).
Proof.
  unfold Models.Grader_graded_submissions_count,
    Models.Grader_graded_submissions_set,
    Models.graded_submissions_set_by_grader.
  apply count_by_assignment. intros s Hs.
  pose proof (one_assignment_matches db (grader_course g) s resolved Hs)
    as Hone.
  rewrite (map_ext _ (fun a =>
             if fk_is (graded_by s) (grader_user g)
                && Bool.eqb (submitted s) true && Bool.eqb (graded s) true
             then (if assignment_eqb (assignment s) a then 1 else 0)
             else 0))
    by (intros a;
        destruct (fk_is (graded_by s) (grader_user g)), (submitted s),
          (graded s), (assignment_eqb (assignment s) a); reflexivity).
  rewrite sum_guard, Hone.
  destruct (fk_is (graded_by s) (grader_user g)), (submitted s), (graded s),
    (course_eqb (assignment_course (assignment s)) (grader_course g));
    reflexivity.
Qed.

(** X11. In the same way, the ungraded submissions waiting for a grader
    in the course are the sum over its assignments of the ungraded
    submissions of the roster. *)
Theorem not_graded_count_is_sum_over_assignments :
  Models.Grader_not_graded_submissions_count db g
  = Totals.sum
      (map (fun a => count (Models.not_graded_submissions_set_by_grader db a g))
           (Totals.course_assignments db (grader_course g))).
Proof.
  unfold Models.Grader_not_graded_submissions_count,
    Models.Grader_not_graded_submissions_set,
    Models.not_graded_submissions_set_by_grader.
  apply count_by_assignment. intros s Hs.
  pose proof (one_assignment_matches db (grader_course g) s resolved Hs)
    as Hone.
  set (on_roster := user_in (student s)
                       (map student_user (Models.grader_students db g))).
  rewrite (map_ext _ (fun a =>
             if on_roster
                && Bool.eqb (submitted s) true && Bool.eqb (graded s) false
             then (if assignment_eqb (assignment s) a then 1 else 0)
             else 0))
    by (intros a;
        destruct on_roster, (submitted s), (graded s),
          (assignment_eqb (assignment s) a); reflexivity).
  rewrite sum_guard, Hone.
  destruct on_roster, (submitted s), (graded s),
    (course_eqb (assignment_course (assignment s)) (grader_course g));
    reflexivity.
Qed.

End CourseTotals.

Lemma graded_count_is_sum_sample :
  Models.Grader_graded_submissions_count Roster.course_db Sample.bob_grader
  = Totals.sum
      (map (fun a => count (Models.graded_submissions_set_by_grader
                              Roster.course_db a
                              (grader_user Sample.bob_grader)))
           (Totals.course_assignments Roster.course_db
              (grader_course Sample.bob_grader))).
Proof.
  apply (graded_count_is_sum_over_assignments Roster.course_db
           Sample.bob_grader).
  intros s [<- | []]. exists Sample.hw1. split; reflexivity.
Defined.

Lemma not_graded_count_is_sum_sample :
  Models.Grader_not_graded_submissions_count Roster.course_db
    Sample.bob_grader
  = Totals.sum
      (map (fun a => count (Models.not_graded_submissions_set_by_grader
                              Roster.course_db a Sample.bob_grader))
           (Totals.course_assignments Roster.course_db
              (grader_course Sample.bob_grader))).
Proof.
  apply (not_graded_count_is_sum_over_assignments Roster.course_db
           Sample.bob_grader).
  intros s [<- | []]. exists Sample.hw1. split; reflexivity.
Defined.

(* ===================================================================== *)
(** * More facts about sga/views.py *)
(* ===================================================================== *)

(** ** Keys of the submissions *)

Lemma next_pk_above (rows : list Submission) (s : Submission) :
  In s rows -> pk s < next_pk rows.
Proof.
  unfold next_pk. induction rows as [|r rows IH]; [intros []|].
  cbn [fold_right]. intros [-> | Hin]; [lia|]. specialize (IH Hin). lia.
Qed.

Lemma matches_pair_key (u : User) (a : Assignment) (s : Submission) :
  user_eqb (student s) u && assignment_eqb (assignment s) a = true
  <-> Totals.pair_key s = (assignment_pk a, user_pk u).
Proof.
  unfold user_eqb, assignment_eqb, Totals.pair_key.
  rewrite andb_true_iff, !Z.eqb_eq. split.
  - intros [-> ->]. reflexivity.
  - intros [= -> ->]. split; reflexivity.
Qed.

(** With unique pairs at most one submission is found for a student and
    an assignment. *)
Lemma at_most_one_match (u : User) (a : Assignment) (rows : list Submission) :
  NoDup (map Totals.pair_key rows) ->
  (List.length
     (filter (fun s => user_eqb (student s) u
                       && assignment_eqb (assignment s) a) rows) <= 1)%nat.
Proof.
  induction rows as [|r rows IH]; cbn; [lia|].
  intros Hnodup. apply NoDup_cons_iff in Hnodup as [Hnotin Hnodup].
  specialize (IH Hnodup).
  destruct (user_eqb (student r) u && assignment_eqb (assignment r) a)
    eqn:Hr; [|exact IH].
  cbn. destruct (filter _ rows) as [|x l] eqn:Hf; [cbn; lia|].
  exfalso. apply Hnotin.
  assert (Hx : In x (filter (fun s => user_eqb (student s) u
                                      && assignment_eqb (assignment s) a)
                            rows)) by (rewrite Hf; now left).
  apply filter_In in Hx as [Hin Hx].
  apply matches_pair_key in Hr, Hx. rewrite Hr, <- Hx.
  now apply in_map.
Qed.

Lemma NoDup_snoc {A : Type} (l : list A) (x : A) :
  NoDup l -> ~ In x l -> NoDup (l ++ [x]).
Proof.
  intros Hl Hx. apply NoDup_app.
  - exact Hl.
  - repeat constructor. intros [].
  - intros a Ha [<- | []]. now apply Hx.
Qed.

Lemma NoDup_map_eq {A B : Type} (f : A -> B) (l : list A) (x y : A) :
  NoDup (map f l) -> In x l -> In y l -> f x = f y -> x = y.
Proof.
  induction l as [|z l IH]; [intros _ []|].
  cbn. intros Hnodup. apply NoDup_cons_iff in Hnodup as [Hnotin Hnodup].
  intros [-> | Hx] [-> | Hy] Heq; auto.
  - elim Hnotin. rewrite Heq. now apply in_map.
  - elim Hnotin. rewrite <- Heq. now apply in_map.
Qed.

Lemma well_keyed_get_or_create (now' : Z) (u : User) (a : Assignment)
  (db : Database) :
  Totals.well_keyed db ->
  Totals.well_keyed (snd (get_or_create now' u a db)).
Proof.
  intros [Hpk Hkey]. unfold get_or_create, objects_get.
  destruct (filter _ (submissions db)) as [|x [|y l]] eqn:Hf; cbn [snd];
    try (split; assumption).
  unfold Totals.well_keyed. cbn [submissions set_submissions].
  split; rewrite map_app; cbn [map]; apply NoDup_snoc; try assumption.
  - intros Hin. apply in_map_iff in Hin as (s & Hs & Hin).
    apply next_pk_above in Hin. cbn [pk new_submission] in Hs. lia.
  - intros Hin. apply in_map_iff in Hin as (s & Hs & Hin).
    assert (Hmatch : In s (filter (fun s => user_eqb (student s) u
                                            && assignment_eqb (assignment s) a)
                                  (submissions db))).
    { apply filter_In. split; [assumption|].
      apply matches_pair_key. exact Hs. }
    rewrite Hf in Hmatch. destruct Hmatch.
Qed.

(** Saving an instance over the row it came from leaves the lists of
    primary keys and of pairs as they were. *)
Lemma save_keeps_keys (now' : Z) (s r0 : Submission) (db : Database) :
  NoDup (map pk (submissions db)) ->
  In r0 (submissions db) -> pk s = pk r0 ->
  Totals.pair_key s = Totals.pair_key r0 ->
  map pk (submissions (snd (save now' s db))) = map pk (submissions db)
  /\ map Totals.pair_key (submissions (snd (save now' s db)))
     = map Totals.pair_key (submissions db).
Proof.
  intros Hnodup Hin Hpk Hkey. unfold save; cbn.
  replace (existsb (fun r => pk r =? pk s) (submissions db)) with true.
  - rewrite !map_map. split; apply map_ext_in; intros r Hr.
    + destruct (pk r =? pk s) eqn:E; [|reflexivity].
      apply Z.eqb_eq in E. now rewrite E.
    + destruct (pk r =? pk s) eqn:E; [|reflexivity].
      apply Z.eqb_eq in E.
      assert (r = r0) as -> by (apply (NoDup_map_eq pk (submissions db));
                                auto; congruence).
      exact Hkey.
  - symmetry. apply existsb_exists. exists r0.
    split; [assumption | now apply Z.eqb_eq].
Qed.

Lemma well_keyed_save_twice (n1 n2 : Z) (s1 s2 r0 : Submission)
  (db : Database) :
  Totals.well_keyed db -> In r0 (submissions db) ->
  pk s1 = pk r0 -> Totals.pair_key s1 = Totals.pair_key r0 ->
  pk s2 = pk s1 -> Totals.pair_key s2 = Totals.pair_key s1 ->
  Totals.well_keyed (snd (save n2 s2 (snd (save n1 s1 db)))).
Proof.
  intros [Hpk Hkey] Hin Hpk1 Hkey1 Hpk2 Hkey2.
  destruct (save_keeps_keys n1 s1 r0 db Hpk Hin Hpk1 Hkey1) as [Hp1 Hk1].
  assert (Hnodup1 : NoDup (map pk (submissions (snd (save n1 s1 db)))))
    by now rewrite Hp1.
  destruct (save_keeps_keys n2 s2 (set_updated_on s1 n1)
              (snd (save n1 s1 db)) Hnodup1 (save_stored n1 s1 db)
              Hpk2 Hkey2) as [Hp2 Hk2].
  split; [now rewrite Hp2, Hp1 | now rewrite Hk2, Hk1].
Qed.

Lemma well_keyed_save (n : Z) (s r0 : Submission) (db : Database) :
  Totals.well_keyed db -> In r0 (submissions db) ->
  pk s = pk r0 -> Totals.pair_key s = Totals.pair_key r0 ->
  Totals.well_keyed (snd (save n s db)).
Proof.
  intros [Hpk Hkey] Hin Hpk1 Hkey1.
  destruct (save_keeps_keys n s r0 db Hpk Hin Hpk1 Hkey1) as [Hp1 Hk1].
  split; [now rewrite Hp1 | now rewrite Hk1].
Qed.

Lemma pair_key_identity (s s' : Submission) :
  student s' = student s -> assignment s' = assignment s ->
  Totals.pair_key s' = Totals.pair_key s.
Proof. unfold Totals.pair_key. now intros -> ->. Qed.

Section Keys.

Context {FormData : Type}.
Variable student_form_is_valid : FormData -> Submission -> bool.
Variable student_form_fields : FormData -> Submission -> Submission.
Variable grader_form_is_valid : FormData -> Submission -> bool.
Variable grader_form_fields : FormData -> Submission -> Submission.

Hypothesis student_form_keeps_identity :
  Totals.keeps_identity student_form_fields.
Hypothesis grader_form_keeps_identity :
  Totals.keeps_identity grader_form_fields.

Lemma lookup_as_student_well_keyed (request : Request FormData)
  (aid : string) (db : Database) :
  Totals.well_keyed db ->
  match lookup_as_student request aid db with
  | (inr (_, sub), mid) => Totals.well_keyed mid /\ In sub (submissions mid)
  | (inl _, mid) => Totals.well_keyed mid
  end.
Proof.
  intros Hdb. unfold lookup_as_student, bind, query, ret.
  destruct (objects_get _ (assignments db)) as [e|a]; [exact Hdb|].
  pose proof (well_keyed_get_or_create (now request) (user request) a db Hdb)
    as Hwk.
  pose proof (get_or_create_spec (now request) (user request) a db) as Hspec.
  destruct (get_or_create _ _ _ db) as [[e|[obj created]] mid];
    cbn in *; [exact Hwk|].
  split; [exact Hwk|].
  destruct Hspec as [(_ & -> & Hin) | (_ & _ & ->)]; [assumption|].
  cbn. apply in_or_app. right. now left.
Qed.

Lemma lookup_as_staff_well_keyed (request : Request FormData)
  (aid sid : string) (db : Database) :
  Totals.well_keyed db ->
  match lookup_as_staff request aid sid db with
  | (inr (_, _, sub), mid) => Totals.well_keyed mid /\ In sub (submissions mid)
  | (inl _, mid) => Totals.well_keyed mid
  end.
Proof.
  intros Hdb. unfold lookup_as_staff, bind, query, ret.
  destruct (objects_get _ (assignments db)) as [e|a]; [exact Hdb|].
  destruct (objects_get _ (students db)) as [e|st]; [exact Hdb|].
  pose proof (well_keyed_get_or_create (now request) (student_user st) a db
                Hdb) as Hwk.
  pose proof (get_or_create_spec (now request) (student_user st) a db)
    as Hspec.
  destruct (get_or_create _ _ _ db) as [[e|[obj created]] mid];
    cbn in *; [exact Hwk|].
  split; [exact Hwk|].
  destruct Hspec as [(_ & -> & Hin) | (_ & _ & ->)]; [assumption|].
  cbn. apply in_or_app. right. now left.
Qed.

Lemma run_well_keyed (c : Call FormData) (db : Database) :
  Totals.well_keyed db ->
  Totals.well_keyed
    (snd (run student_form_is_valid student_form_fields grader_form_is_valid
              grader_form_fields c db)).
Proof.
  intros Hdb. destruct c as [r a | r a u | r a u]; cbn [run].
  - pose proof (lookup_as_student_well_keyed r a db Hdb) as Hl.
    unfold view_submission_as_student, bind, try_except.
    destruct (lookup_as_student r a db) as [[e|[a' sub]] mid]; [exact Hl|].
    destruct Hl as [Hmid Hsub]. cbn [snd].
    destruct (method r); [exact Hmid|].
    destruct (student_form_is_valid (data r) sub); [|exact Hmid].
    unfold form_save. rewrite save_eq. rewrite save_eq. cbn [ret snd].
    destruct (student_form_keeps_identity (data r) sub) as (Hp & Hs & Ha).
    apply (well_keyed_save_twice _ _ _ _ sub); auto.
    now apply pair_key_identity.
  - pose proof (lookup_as_staff_well_keyed r a u db Hdb) as Hl.
    unfold view_submission_as_staff, bind, try_except.
    destruct (lookup_as_staff r a u db) as [[e|[[a' st] sub]] mid];
      [exact Hl|].
    destruct Hl as [Hmid Hsub]. cbn [snd fst].
    unfold next_not_graded_submission, query.
    destruct (method r); [exact Hmid|].
    destruct (grader_form_is_valid (data r) sub); [|exact Hmid].
    unfold form_save. rewrite save_eq. rewrite save_eq. cbn [ret snd].
    destruct (grader_form_keeps_identity (data r) sub) as (Hp & Hs & Ha).
    apply (well_keyed_save_twice _ _ _ _ sub); auto.
    now apply pair_key_identity.
  - pose proof (lookup_as_staff_well_keyed r a u db Hdb) as Hl.
    unfold unsubmit_submission, bind, try_except.
    destruct (lookup_as_staff r a u db) as [[e|[[a' st] sub]] mid];
      [exact Hl|].
    destruct Hl as [Hmid Hsub]. cbn [snd].
    rewrite save_eq. cbn [ret snd].
    apply (well_keyed_save _ _ sub); auto.
Qed.

(** X13. The three submission views keep the submissions unique: in every
    state they reach from a database without submissions no two rows
    share a primary key and no two rows are for the same assignment and
    student; provided the forms leave the key, the student and the
    assignment of the instance alone. *)
Theorem reachable_well_keyed (db : Database) :
  reachable student_form_is_valid student_form_fields grader_form_is_valid
            grader_form_fields db ->
  NoDup (map pk (submissions db))
  /\ NoDup (map Totals.pair_key (submissions db)).
Proof.
  intros Hreach. change (Totals.well_keyed db).
  induction Hreach as [db Hnone | db c _ IH].
  - unfold Totals.well_keyed. rewrite Hnone. split; constructor.
  - now apply run_well_keyed.
Qed.

End Keys.

Lemma reachable_well_keyed_sample :
  NoDup (map pk (submissions Sample.after_grading))
  /\ NoDup (map Totals.pair_key (submissions Sample.after_grading)).
Proof.
  apply (reachable_well_keyed Sample.student_valid Sample.student_fields
           Sample.grader_valid Sample.grader_fields).
  - intros d s. repeat split.
  - intros d s. repeat split.
  - unfold Sample.after_grading. apply reachable_step.
    unfold Sample.after_submit. apply reachable_step.
    apply reachable_initial. reflexivity.
Defined.

(** ** What the submission views leave alone *)

Lemma save_keeps_pk (n : Z) (s r : Submission) (db : Database) :
  In r (submissions db) ->
  exists r', In r' (submissions (snd (save n s db))) /\ pk r' = pk r.
Proof.
  intros Hin. unfold save; cbn.
  destruct (existsb _ (submissions db)).
  - exists (if pk r =? pk s then set_updated_on s n else r). split.
    + apply in_map_iff. exists r. auto.
    + destruct (pk r =? pk s) eqn:E; [|reflexivity].
      apply Z.eqb_eq in E. now rewrite E.
  - exists r. split; [apply in_or_app; now left | reflexivity].
Qed.

Lemma save_tables (n : Z) (s : Submission) (db : Database) :
  administrators (snd (save n s db)) = administrators db
  /\ graders (snd (save n s db)) = graders db
  /\ students (snd (save n s db)) = students db
  /\ assignments (snd (save n s db)) = assignments db.
Proof. repeat split. Qed.

Lemma get_or_create_tables (n : Z) (u : User) (a : Assignment) (db : Database) :
  administrators (snd (get_or_create n u a db)) = administrators db
  /\ graders (snd (get_or_create n u a db)) = graders db
  /\ students (snd (get_or_create n u a db)) = students db
  /\ assignments (snd (get_or_create n u a db)) = assignments db.
Proof.
  unfold get_or_create.
  destruct (objects_get _ (submissions db)) as [[]|]; repeat split.
Qed.

Lemma get_or_create_keeps_rows (n : Z) (u : User) (a : Assignment)
  (db : Database) (r : Submission) :
  In r (submissions db) -> In r (submissions (snd (get_or_create n u a db))).
Proof.
  unfold get_or_create.
  destruct (objects_get _ (submissions db)) as [[]|]; cbn; auto.
  intros Hin. apply in_or_app. now left.
Qed.

(** The database a lookup leaves is the one it found or the one its
    [get_or_create] leaves. *)
Lemma lookup_as_student_db {FormData : Type} (request : Request FormData)
  (aid : string) (db : Database) :
  snd (lookup_as_student request aid db) = db
  \/ exists a, snd (lookup_as_student request aid db)
               = snd (get_or_create (now request) (user request) a db).
Proof.
  unfold lookup_as_student, bind, query, ret.
  destruct (objects_get _ (assignments db)) as [e|a]; [now left|].
  right. exists a.
  now destruct (get_or_create _ _ _ db) as [[e|[obj created]] mid].
Qed.

Lemma lookup_as_staff_db {FormData : Type} (request : Request FormData)
  (aid sid : string) (db : Database) :
  snd (lookup_as_staff request aid sid db) = db
  \/ exists u a, snd (lookup_as_staff request aid sid db)
                 = snd (get_or_create (now request) u a db).
Proof.
  unfold lookup_as_staff, bind, query, ret.
  destruct (objects_get _ (assignments db)) as [e|a]; [now left|].
  destruct (objects_get _ (students db)) as [e|st]; [now left|].
  right. exists (student_user st), a.
  now destruct (get_or_create _ _ _ db) as [[e|[obj created]] mid].
Qed.

(** The database a view leaves is reached from the one it found by a
    lookup and then at most two saves. *)
Lemma run_db {FormData : Type}
  (sv : FormData -> Submission -> bool)
  (sf : FormData -> Submission -> Submission)
  (gv : FormData -> Submission -> bool)
  (gf : FormData -> Submission -> Submission)
  (c : Call FormData) (db : Database) :
  exists mid,
    (mid = db \/ exists n u a, mid = snd (get_or_create n u a db))
    /\ (snd (run sv sf gv gf c db) = mid
        \/ (exists n s, snd (run sv sf gv gf c db) = snd (save n s mid))
        \/ (exists n1 s1 n2 s2,
              snd (run sv sf gv gf c db)
              = snd (save n2 s2 (snd (save n1 s1 mid))))).
Proof.
  destruct c as [r a | r a u | r a u]; cbn [run].
  - exists (snd (lookup_as_student r a db)). split.
    { destruct (lookup_as_student_db r a db) as [-> | (a' & ->)]; eauto 6. }
    unfold view_submission_as_student, bind, try_except.
    destruct (lookup_as_student r a db) as [[e|[a' sub]] mid]; [now left|].
    cbn [snd]. destruct (method r); [now left|].
    destruct (sv (data r) sub); [|now left].
    unfold form_save. rewrite save_eq. rewrite save_eq. cbn [ret snd].
    right. right. eauto 6.
  - exists (snd (lookup_as_staff r a u db)). split.
    { destruct (lookup_as_staff_db r a u db) as [-> | (u' & a' & ->)];
        eauto 6. }
    unfold view_submission_as_staff, bind, try_except.
    destruct (lookup_as_staff r a u db) as [[e|[[a' st] sub]] mid];
      [now left|].
    cbn [snd fst]. unfold next_not_graded_submission, query.
    destruct (method r); [now left|].
    destruct (gv (data r) sub); [|now left].
    unfold form_save. rewrite save_eq. rewrite save_eq. cbn [ret snd].
    right. right. eauto 6.
  - exists (snd (lookup_as_staff r a u db)). split.
    { destruct (lookup_as_staff_db r a u db) as [-> | (u' & a' & ->)];
        eauto 6. }
    unfold unsubmit_submission, bind, try_except.
    destruct (lookup_as_staff r a u db) as [[e|[[a' st] sub]] mid];
      [now left|].
    cbn [snd]. rewrite save_eq. cbn [ret snd]. right. left. eauto.
Qed.

(** X14. No submission view deletes anything or writes another table:
    every primary key stored before a call is stored after it, whatever
    the forms do, and the administrators, graders, students and
    assignments are as they were. *)
Theorem run_keeps_rows_and_tables {FormData : Type}
  (sv : FormData -> Submission -> bool)
  (sf : FormData -> Submission -> Submission)
  (gv : FormData -> Submission -> bool)
  (gf : FormData -> Submission -> Submission)
  (c : Call FormData) (db : Database) :
  (forall r, In r (submissions db) ->
     exists r', In r' (submissions (snd (run sv sf gv gf c db)))
                /\ pk r' = pk r)
  /\ administrators (snd (run sv sf gv gf c db)) = administrators db
  /\ graders (snd (run sv sf gv gf c db)) = graders db
  /\ students (snd (run sv sf gv gf c db)) = students db
  /\ assignments (snd (run sv sf gv gf c db)) = assignments db.
Proof.
  destruct (run_db sv sf gv gf c db) as (mid & Hmid & Hrun).
  assert (Hrows : forall r, In r (submissions db) -> In r (submissions mid)).
  { destruct Hmid as [-> | (n & u & a & ->)]; [auto|].
    intros r. apply get_or_create_keeps_rows. }
  assert (Htables : administrators mid = administrators db
                    /\ graders mid = graders db
                    /\ students mid = students db
                    /\ assignments mid = assignments db).
  { destruct Hmid as [-> | (n & u & a & ->)]; [auto|].
    apply get_or_create_tables. }
  destruct Hrun as [-> | [(n & s & ->) | (n1 & s1 & n2 & s2 & ->)]].
  - split; [|exact Htables]. intros r Hr. exists r. auto.
  - split; [|exact Htables]. intros r Hr. apply save_keeps_pk. auto.
  - split; [|exact Htables]. intros r Hr.
    destruct (save_keeps_pk n1 s1 r mid (Hrows r Hr)) as (r1 & Hr1 & Hpk1).
    destruct (save_keeps_pk n2 s2 r1 _ Hr1) as (r2 & Hr2 & Hpk2).
    exists r2. split; [assumption | congruence].
Qed.

(** ** Reading creates *)

Lemma get_or_create_again (n n' : Z) (u : User) (a : Assignment)
  (db : Database) :
  get_or_create n' u a (snd (get_or_create n u a db))
  = (match fst (get_or_create n u a db) with
     | inr (obj, _) => inr (obj, false)
     | inl e => inl e
     end, snd (get_or_create n u a db)).
Proof.
  unfold get_or_create, objects_get.
  destruct (filter _ (submissions db)) as [|x [|y l]] eqn:Hf; cbn.
  - rewrite filter_app, Hf. cbn.
    unfold user_eqb, assignment_eqb. now rewrite !Z.eqb_refl.
  - now rewrite Hf.
  - now rewrite Hf.
Qed.

Section Reading.

Context {FormData : Type}.
Variable student_form_is_valid : FormData -> Submission -> bool.
Variable student_form_fields : FormData -> Submission -> Submission.

(** X15. A GET of the student view writes at most the missing submission
    row, all fields at their defaults, and a second GET by the same user
    finds that row: it answers as the first did and changes nothing. *)
Theorem get_creates_once (request again : Request FormData) (aid : string)
  (db : Database) :
  method request = GET -> method again = GET -> user again = user request ->
  let first :=
    view_submission_as_student student_form_is_valid student_form_fields
      request aid db in
  (submissions (snd first) = submissions db
   \/ exists a,
        submissions (snd first)
        = submissions db
          ++ [new_submission (next_pk (submissions db)) (now request)
                (user request) a])
  /\ view_submission_as_student student_form_is_valid student_form_fields
       again aid (snd first)
     = first.
Proof.
  intros Hget Hagain Huser first. subst first.
  unfold view_submission_as_student, lookup_as_student, bind, try_except,
    query, ret, raise.
  rewrite Hget, Hagain, Huser.
  destruct (objects_get _ (assignments db)) as [e|a] eqn:Ha; cbn.
  - rewrite Ha. cbn. auto.
  - pose proof (get_or_create_again (now request) (now again) (user request)
                  a db) as Hsecond.
    pose proof (get_or_create_tables (now request) (user request) a db)
      as (_ & _ & _ & Htable).
    pose proof (get_or_create_spec (now request) (user request) a db) as Hspec.
    destruct (get_or_create (now request) (user request) a db)
      as [[e|[obj created]] mid]; cbn in *.
    + subst mid. rewrite Ha. cbn. rewrite Hsecond. cbn. auto.
    + split.
      * destruct Hspec as [(_ & -> & _) | (_ & -> & ->)]; [now left|].
        right. exists a. reflexivity.
      * rewrite Htable, Ha. cbn. rewrite Hsecond. reflexivity.
Qed.

End Reading.

Lemma get_creates_once_sample :
  (submissions
     (snd (view_submission_as_student Sample.student_valid
             Sample.student_fields Sample.carol_gets "hw1" Sample.empty_db))
   = submissions Sample.empty_db
   \/ exists a,
        submissions
          (snd (view_submission_as_student Sample.student_valid
                  Sample.student_fields Sample.carol_gets "hw1"
                  Sample.empty_db))
        = submissions Sample.empty_db
          ++ [new_submission (next_pk (submissions Sample.empty_db))
                (now Sample.carol_gets) (user Sample.carol_gets) a])
  /\ view_submission_as_student Sample.student_valid Sample.student_fields
       Sample.carol_gets "hw1"
       (snd (view_submission_as_student Sample.student_valid
               Sample.student_fields Sample.carol_gets "hw1" Sample.empty_db))
     = view_submission_as_student Sample.student_valid Sample.student_fields
         Sample.carol_gets "hw1" Sample.empty_db.
Proof.
  apply (get_creates_once Sample.student_valid Sample.student_fields
           Sample.carol_gets Sample.carol_gets "hw1" Sample.empty_db);
    reflexivity.
Defined.

(** ** Known assignments are served *)

Section Served.

Context {FormData : Type}.
Variable student_form_is_valid : FormData -> Submission -> bool.
Variable student_form_fields : FormData -> Submission -> Submission.

(** X16. Once no two submissions are for the same assignment and student,
    the student view answers every request for an assignment that the
    lookup finds: its 404 can only come from the assignment id. *)
Theorem known_assignment_is_served (request : Request FormData)
  (aid : string) (db : Database) (a : Assignment) :
  NoDup (map Totals.pair_key (submissions db)) ->
  objects_get (fun b => String.eqb (assignment_edx_id b) aid) (assignments db)
  = inr a ->
  exists page,
    fst (view_submission_as_student student_form_is_valid
           student_form_fields request aid db) = inr page.
Proof.
  intros Hkeys Ha.
  unfold view_submission_as_student, lookup_as_student, bind, try_except,
    query, ret.
  rewrite Ha. cbn.
  pose proof (at_most_one_match (user request) a (submissions db) Hkeys)
    as Hone.
  unfold get_or_create, objects_get.
  destruct (filter _ (submissions db)) as [|x [|y l]]; cbn in Hone; [| |lia];
    cbn; destruct (method request); cbn; eauto;
    destruct (student_form_is_valid _ _); cbn; eauto.
Qed.

End Served.

Lemma known_assignment_is_served_sample :
  exists page,
    fst (view_submission_as_student Sample.student_valid
           Sample.student_fields Sample.alice_posts "hw1" Sample.graded_db)
    = inr page.
Proof.
  apply (known_assignment_is_served Sample.student_valid
           Sample.student_fields Sample.alice_posts "hw1" Sample.graded_db
           Sample.hw1).
  - cbn. repeat constructor. intros [].
  - reflexivity.
Defined.

(** ** What a post does to the status *)

Section Transitions.

Context {FormData : Type}.
Variable student_form_is_valid : FormData -> Submission -> bool.
Variable student_form_fields : FormData -> Submission -> Submission.
Variable grader_form_is_valid : FormData -> Submission -> bool.
Variable grader_form_fields : FormData -> Submission -> Submission.

(** X17. A valid marking grades the submission whether or not it was
    submitted: the saved row is graded by the posting user at the time of
    the request, and its [submitted] and [submitted_at] are what they
    were, provided the grader form leaves those two alone. *)
Theorem grading_does_not_need_submission (request : Request FormData)
  (aid sid : string) (db mid : Database) (a : Assignment) (st : Student)
  (before : Submission) :
  Logic.keeps_submission grader_form_fields ->
  lookup_as_staff request aid sid db = (inr (a, st, before), mid) ->
  method request = POST ->
  grader_form_is_valid (data request) before = true ->
  exists after,
    In after
       (submissions
          (snd (view_submission_as_staff grader_form_is_valid
                  grader_form_fields request aid sid db)))
    /\ pk after = pk (grader_form_fields (data request) before)
    /\ graded after = true
    /\ graded_by after = Some (user request)
    /\ graded_at after = Some (now request)
    /\ submitted after = submitted before
    /\ submitted_at after = submitted_at before.
Proof.
  intros Hkeeps Hl Hpost Hvalid.
  unfold view_submission_as_staff, bind, try_except.
  rewrite Hl. cbn [snd fst]. unfold next_not_graded_submission, query.
  rewrite Hpost, Hvalid. unfold form_save.
  rewrite save_eq. rewrite save_eq. cbn [ret snd].
  eexists. split; [apply save_stored|].
  destruct (Hkeeps (data request) before) as (Hs & Hat).
  cbn. auto.
Qed.

(** X18. A valid upload marks the submission submitted at the time of the
    request and leaves a grading in place: [graded], [graded_at] and
    [graded_by] are what they were, provided the student form leaves
    those three alone.  A graded submission stays graded when it is
    submitted again. *)
Theorem resubmission_keeps_grading (request : Request FormData)
  (aid : string) (db mid : Database) (a : Assignment) (before : Submission) :
  Logic.keeps_grading student_form_fields ->
  lookup_as_student request aid db = (inr (a, before), mid) ->
  method request = POST ->
  student_form_is_valid (data request) before = true ->
  exists after,
    In after
       (submissions
          (snd (view_submission_as_student student_form_is_valid
                  student_form_fields request aid db)))
    /\ pk after = pk (student_form_fields (data request) before)
    /\ submitted after = true
    /\ submitted_at after = Some (now request)
    /\ graded after = graded before
    /\ graded_at after = graded_at before
    /\ graded_by after = graded_by before.
Proof.
  intros Hkeeps Hl Hpost Hvalid.
  unfold view_submission_as_student, bind, try_except.
  rewrite Hl. cbn [snd]. rewrite Hpost, Hvalid. unfold form_save.
  rewrite save_eq. rewrite save_eq. cbn [ret snd].
  eexists. split; [apply save_stored|].
  destruct (Hkeeps (data request) before) as (Hg & Hat & Hby).
  cbn. auto.
Qed.

End Transitions.

(** Bob marks Alice's hw1 before she has submitted anything: the row the
    lookup creates is graded and not submitted. *)
Lemma grading_does_not_need_submission_sample :
  exists after,
    In after
       (submissions
          (snd (view_submission_as_staff Sample.grader_valid
                  Sample.grader_fields Sample.bob_posts "hw1" "alice"
                  Sample.empty_db)))
    /\ pk after
       = pk (Sample.grader_fields (data Sample.bob_posts)
               (new_submission 1 300 Sample.alice Sample.hw1))
    /\ graded after = true
    /\ graded_by after = Some (user Sample.bob_posts)
    /\ graded_at after = Some (now Sample.bob_posts)
    /\ submitted after
       = submitted (new_submission 1 300 Sample.alice Sample.hw1)
    /\ submitted_at after
       = submitted_at (new_submission 1 300 Sample.alice Sample.hw1).
Proof.
  apply (grading_does_not_need_submission Sample.grader_valid
           Sample.grader_fields Sample.bob_posts "hw1" "alice"
           Sample.empty_db
           (snd (lookup_as_staff Sample.bob_posts "hw1" "alice"
                   Sample.empty_db))
           Sample.hw1 Sample.alice_student
           (new_submission 1 300 Sample.alice Sample.hw1)).
  - intros d s. repeat split.
  - reflexivity.
  - reflexivity.
  - reflexivity.
Defined.

(** Alice uploads again after Bob has graded: the row stays graded. *)
Lemma resubmission_keeps_grading_sample :
  exists after,
    In after
       (submissions
          (snd (view_submission_as_student Sample.student_valid
                  Sample.student_fields Sample.alice_posts "hw1"
                  Sample.graded_db)))
    /\ pk after
       = pk (Sample.student_fields (data Sample.alice_posts) Sample.alice_hw1)
    /\ submitted after = true
    /\ submitted_at after = Some (now Sample.alice_posts)
    /\ graded after = graded Sample.alice_hw1
    /\ graded_at after = graded_at Sample.alice_hw1
    /\ graded_by after = graded_by Sample.alice_hw1.
Proof.
  apply (resubmission_keeps_grading Sample.student_valid
           Sample.student_fields Sample.alice_posts "hw1" Sample.graded_db
           Sample.graded_db Sample.hw1 Sample.alice_hw1).
  - intros d s. repeat split.
  - reflexivity.
  - reflexivity.
  - reflexivity.
Defined.

(** ** After an unsubmit *)

(** X19. After the admin unsubmit has gone through, the graded and the
    not-graded counters of no assignment and of no grader count the
    submission any more; but its [graded_by] is still set, so the list of
    graded submissions that the grader view shows for that user still
    holds it. *)
Theorem unsubmitted_is_uncounted_but_listed {FormData : Type}
  (request : Request FormData) (aid sid : string) (db mid db' : Database)
  (resp : Response) (a : Assignment) (st : Student) (before : Submission) :
  lookup_as_staff request aid sid db = (inr (a, st, before), mid) ->
  unsubmit_submission request aid sid db = (inr resp, db') ->
  (forall a' s,
      In s (Models.graded_submissions_set db' a')
      \/ In s (Models.not_graded_submissions_set db' a') ->
      pk s <> pk before)
  /\ (forall g s,
        In s (Models.Grader_graded_submissions_set db' g)
        \/ In s (Models.Grader_not_graded_submissions_set db' g) ->
        pk s <> pk before)
  /\ (forall u,
        graded_by before = Some u ->
        exists after,
          In after (Totals.user_graded_submissions db' u)
          /\ pk after = pk before).
Proof.
  intros Hl. unfold unsubmit_submission, bind, try_except. rewrite Hl.
  cbn [snd]. rewrite save_eq. cbn [ret]. intros [= <- <-].
  set (cleared := set_graded (set_submitted before false) false).
  assert (Hrows : forall s,
    In s (submissions (snd (save (now request) cleared mid))) ->
    submitted s = true -> pk s <> pk before).
  { intros s Hs Hsub.
    apply (save_rows (now request) cleared mid) in Hs as [-> | [_ Hne]];
      [discriminate Hsub | exact Hne]. }
  split; [|split].
  - intros a' s [Hs | Hs];
      unfold Models.graded_submissions_set, Models.not_graded_submissions_set,
        Models.assignment_submissions in Hs;
      rewrite !filter_In, !andb_true_iff, eqb_true_r in Hs;
      apply Hrows; tauto.
  - intros g s [Hs | Hs];
      unfold Models.Grader_graded_submissions_set,
        Models.Grader_not_graded_submissions_set in Hs;
      rewrite !filter_In, !andb_true_iff, eqb_true_r in Hs;
      apply Hrows; tauto.
  - intros u Hu. exists (set_updated_on cleared (now request)).
    split; [|reflexivity].
    apply filter_In. split.
    + apply (save_stored (now request) cleared mid).
    + cbn. rewrite Hu. cbn. apply Z.eqb_refl.
Qed.

Lemma unsubmitted_is_uncounted_but_listed_sample :
  (forall a' s,
      In s (Models.graded_submissions_set
              (snd (unsubmit_submission Sample.carol_gets "hw1" "alice"
                      Sample.graded_db)) a')
      \/ In s (Models.not_graded_submissions_set
                 (snd (unsubmit_submission Sample.carol_gets "hw1" "alice"
                         Sample.graded_db)) a') ->
      pk s <> pk Sample.alice_hw1)
  /\ (forall g s,
        In s (Models.Grader_graded_submissions_set
                (snd (unsubmit_submission Sample.carol_gets "hw1" "alice"
                        Sample.graded_db)) g)
        \/ In s (Models.Grader_not_graded_submissions_set
                   (snd (unsubmit_submission Sample.carol_gets "hw1" "alice"
                           Sample.graded_db)) g) ->
        pk s <> pk Sample.alice_hw1)
  /\ (forall u,
        graded_by Sample.alice_hw1 = Some u ->
        exists after,
          In after (Totals.user_graded_submissions
                      (snd (unsubmit_submission Sample.carol_gets "hw1"
                              "alice" Sample.graded_db)) u)
          /\ pk after = pk Sample.alice_hw1).
Proof.
  apply (unsubmitted_is_uncounted_but_listed Sample.carol_gets "hw1" "alice"
           Sample.graded_db Sample.graded_db
           (snd (unsubmit_submission Sample.carol_gets "hw1" "alice"
                   Sample.graded_db))
           (Redirected "view_submission_as_staff")
           Sample.hw1 Sample.alice_student Sample.alice_hw1);
    reflexivity.
Defined.

(** ** The student page *)

(** What [get_or_create] returns is stored and is of the student and the
    assignment asked for. *)
Lemma matches_found (n : Z) (u : User) (a : Assignment) (db : Database)
  (obj : Submission) (created : bool) (mid : Database) :
  get_or_create n u a db = (inr (obj, created), mid) ->
  In obj (submissions mid)
  /\ user_eqb (student obj) u = true
  /\ assignment_eqb (assignment obj) a = true.
Proof.
  unfold get_or_create.
  destruct (objects_get _ (submissions db)) as [e|found] eqn:Hget.
  - destruct e; try discriminate. intros [= <- _ <-]. cbn.
    split; [apply in_or_app; right; now left|].
    unfold user_eqb, assignment_eqb. now rewrite !Z.eqb_refl.
  - intros [= <- _ <-]. apply objects_get_found in Hget as [Hin Hmatch].
    apply andb_true_iff in Hmatch. tauto.
Qed.

(** The loop of [view_student]: one [get_or_create] per assignment. *)
Lemma materialise_loop (n : Z) (u : User) (l : list Assignment)
  (db db' : Database) (rows : list (Assignment * Submission)) :
  Pages.for_each l (fun a' =>
      bind (get_or_create n u a') (fun sc => ret (a', fst sc))) db
  = (inr rows, db') ->
  map fst rows = l
  /\ assignments db' = assignments db
  /\ (exists extra,
        submissions db' = submissions db ++ extra
        /\ forall s, In s extra -> exists p a', s = new_submission p n u a')
  /\ forall a', In a' l ->
       exists s, In s (submissions db')
                 /\ user_eqb (student s) u = true
                 /\ assignment_eqb (assignment s) a' = true.
Proof.
  revert db db' rows. induction l as [|a l IH]; intros db db' rows.
  - cbn. unfold ret. intros [= <- <-].
    repeat split; [|intros a' []].
    exists []. rewrite app_nil_r. split; [reflexivity | intros s []].
  - cbn [Pages.for_each]. unfold bind at 1 2.
    pose proof (get_or_create_spec n u a db) as Hspec.
    pose proof (get_or_create_tables n u a db) as (_ & _ & _ & Htable).
    pose proof (matches_found n u a db) as Hfound.
    destruct (get_or_create n u a db) as [[e|[obj created]] mid];
      cbn [fst snd] in *; [discriminate|].
    unfold ret at 1. cbn.
    unfold bind at 1.
    destruct (Pages.for_each l _ mid) as [[e|rows'] db''] eqn:Hloop;
      [discriminate|].
    unfold ret. intros [= <- <-].
    destruct (IH mid db'' rows' Hloop)
      as (Hmap & Htable' & (extra & Hextra & Hfresh) & Hall).
    assert (Hmid : exists first,
               submissions mid = submissions db ++ first
               /\ forall s, In s first -> exists p a', s = new_submission p n u a').
    { destruct Hspec as [(_ & -> & _) | (_ & Hobj & ->)].
      - exists []. rewrite app_nil_r. split; [reflexivity | intros s []].
      - exists [obj]. split; [reflexivity|].
        intros s [<- | []]. eauto. }
    destruct Hmid as (first & Hfirst & Hfirst_fresh).
    split; [cbn; now rewrite Hmap|].
    split; [congruence|].
    split.
    + exists (first ++ extra). split.
      * now rewrite Hextra, Hfirst, app_assoc.
      * intros s Hs. apply in_app_or in Hs as [Hs | Hs]; auto.
    + intros a' [<- | Ha']; [|now apply Hall].
      destruct (Hfound obj created mid eq_refl) as (Hin & Hu & Ha).
      exists obj. split; [|split; assumption].
      rewrite Hextra. apply in_or_app. now left.
Qed.

(** X20. When [view_student] renders, every assignment of the course has
    a submission row of that student, in the order of the assignments on
    the page; the rows that were there are untouched and the rows added
    are new ones of that student, all fields at their defaults. *)
Theorem view_student_materialises {FormData : Type} (courses : list Course)
  (request : Request FormData) (cid sid : string) (db db' : Database)
  (page : Pages.Page) :
  Pages.view_student courses request cid sid db = (inr page, db') ->
  exists c u rows,
    page = Pages.StudentPage c u rows
    /\ map fst rows = Totals.course_assignments db c
    /\ (exists extra,
          submissions db' = submissions db ++ extra
          /\ forall s, In s extra ->
               exists p a', s = new_submission p (now request) u a')
    /\ forall a', In a' (Totals.course_assignments db c) ->
         exists s, In s (submissions db')
                   /\ user_eqb (student s) u = true
                   /\ assignment_eqb (assignment s) a' = true.
Proof.
  unfold Pages.view_student, Pages.Course_objects_get, bind, try_except,
    query, ret, raise.
  destruct (objects_get _ courses) as [e|c]; cbn; [discriminate|].
  destruct (objects_get _ (students db)) as [e|st]; cbn; [discriminate|].
  destruct (Pages.for_each _ _ db) as [[e|rows] db''] eqn:Hloop;
    [discriminate|].
  intros [= <- <-].
  apply (materialise_loop (now request) (student_user st)) in Hloop
    as (Hmap & _ & Hextra & Hall).
  exists c, (student_user st), rows. auto.
Qed.

Lemma view_student_materialises_sample :
  exists c u rows,
    Pages.StudentPage Sample.cs101 Sample.alice
      [(Sample.hw1, Sample.alice_hw1);
       (Roster.hw2, new_submission 2 400 Sample.alice Roster.hw2)]
    = Pages.StudentPage c u rows
    /\ map fst rows = Totals.course_assignments Roster.course_db c
    /\ (exists extra,
          submissions
            (snd (Pages.view_student Roster.course_table Sample.carol_gets
                    "cs101" "alice" Roster.course_db))
          = submissions Roster.course_db ++ extra
          /\ forall s, In s extra ->
               exists p a', s = new_submission p (now Sample.carol_gets) u a')
    /\ forall a', In a' (Totals.course_assignments Roster.course_db c) ->
         exists s,
           In s (submissions
                   (snd (Pages.view_student Roster.course_table
                           Sample.carol_gets "cs101" "alice"
                           Roster.course_db)))
           /\ user_eqb (student s) u = true
           /\ assignment_eqb (assignment s) a' = true.
Proof.
  apply (view_student_materialises Roster.course_table Sample.carol_gets
           "cs101" "alice" Roster.course_db
           (snd (Pages.view_student Roster.course_table Sample.carol_gets
                   "cs101" "alice" Roster.course_db))).
  reflexivity.
Defined.

(** ** The views that cannot list a student *)

(** X21. [view_student_list] renders only the course without students:
    for a course with a student it raises the [AttributeError] of
    [course.not_graded_submissions_count_by_user], which [Course] does
    not have, and for an unknown course id [Http404].  It never writes. *)
Theorem view_student_list_outcome {FormData : Type} (courses : list Course)
  (request : Request FormData) (cid : string) (db : Database) :
  snd (Pages.view_student_list courses request cid db) = db
  /\ (forall page,
        fst (Pages.view_student_list courses request cid db) = inr page
        <-> exists c,
              objects_get (fun c => String.eqb (course_edx_id c) cid) courses
              = inr c
              /\ Models.course_students db c = []
              /\ page = Pages.StudentListPage c [])
  /\ (forall c u rest,
        objects_get (fun c => String.eqb (course_edx_id c) cid) courses
        = inr c ->
        Models.course_students db c = u :: rest ->
        fst (Pages.view_student_list courses request cid db)
        = inl (AttributeError "not_graded_submissions_count_by_user"))
  /\ (forall e,
        objects_get (fun c => String.eqb (course_edx_id c) cid) courses
        = inl e ->
        fst (Pages.view_student_list courses request cid db) = inl Http404).
Proof.
  unfold Pages.view_student_list, Pages.Course_objects_get, bind, try_except,
    query, ret, raise.
  destruct (objects_get _ courses) as [e|c]; cbn.
  - repeat split; try discriminate; auto.
    intros (c & Hc & _). discriminate.
  - destruct (Models.course_students db c) as [|u rest] eqn:Hs; cbn.
    + repeat split; try discriminate.
      * intros [= <-]. exists c. auto.
      * intros (c' & [= <-] & _ & ->). reflexivity.
      * intros c' u rest [= <-] Hcons. congruence.
    + repeat split; try discriminate; auto.
      intros (c' & [= <-] & Hnil & _). congruence.
Qed.

(** X22. [view_assignment] renders only for a course without students.
    With a student it gets or creates the submission of the first one
    and then fails on [submission.graded()], the call of a [bool]: the
    row stays created, no other student is looked at, and no page is
    returned. *)
Theorem view_assignment_outcome {FormData : Type} (request : Request FormData)
  (aid : string) (db : Database) :
  (forall page,
      fst (Pages.view_assignment request aid db) = inr page ->
      exists a,
        objects_get (fun a => String.eqb (assignment_edx_id a) aid)
                    (assignments db) = inr a
        /\ Models.course_students db (assignment_course a) = []
        /\ page = Pages.AssignmentPage (assignment_course a) a []
        /\ snd (Pages.view_assignment request aid db) = db)
  /\ (forall a u rest,
        objects_get (fun a => String.eqb (assignment_edx_id a) aid)
                    (assignments db) = inr a ->
        Models.course_students db (assignment_course a) = u :: rest ->
        Pages.view_assignment request aid db
        = (match fst (get_or_create (now request) u a db) with
           | inl e => inl (Pages.Raised e)
           | inr _ => inl (Pages.TypeError "'bool' object is not callable")
           end,
           snd (get_or_create (now request) u a db)))
  /\ (forall e,
        objects_get (fun a => String.eqb (assignment_edx_id a) aid)
                    (assignments db) = inl e ->
        Pages.view_assignment request aid db
        = (inl (Pages.Raised Http404), db)).
Proof.
  unfold Pages.view_assignment, Pages.bindF, Pages.lift, bind, try_except,
    query, ret, raise.
  destruct (objects_get _ (assignments db)) as [e|a]; cbn.
  - repeat split; try discriminate.
  - destruct (Models.course_students db (assignment_course a))
      as [|u rest] eqn:Hs; cbn.
    + repeat split; try discriminate.
      * intros page [= <-]. exists a. auto.
      * intros a' u' rest' [= <-] Hcons. congruence.
    + unfold Pages.bindF, Pages.lift.
      destruct (get_or_create (now request) u a db)
        as [[e|[obj created]] mid] eqn:Hg; cbn;
        (repeat split; try discriminate;
         intros a' u' rest' [= <-] Hcons;
         rewrite Hs in Hcons; injection Hcons as <- _;
         rewrite Hg; reflexivity).
Qed.

(** In the sample course Alice is a student: the assignment page cannot
    be rendered, and her missing row for hw2 has been created. *)
Example view_assignment_fails :
  Pages.view_assignment Sample.carol_gets "hw2" Roster.course_db
  = (inl (Pages.TypeError "'bool' object is not callable"),
     Views.set_submissions Roster.course_db
       [Sample.alice_hw1; new_submission 2 400 Sample.alice Roster.hw2]).
Proof. reflexivity. Qed.

(* ===================================================================== *)
(** * Totals over a roster, and students of two courses *)
(* ===================================================================== *)

Lemma count_by_scope {A : Type} (P : Submission -> bool)
  (Q : A -> Submission -> bool) (scope : list A) (rows : list Submission) :
  (forall s, In s rows ->
     Totals.sum (map (fun a => if Q a s then 1 else 0) scope)
     = if P s then 1 else 0) ->
  count (filter P rows)
  = Totals.sum (map (fun a => count (filter (Q a) rows)) scope).
Proof.
  induction rows as [|s rows IH]; intros Hone.
  - cbn. now rewrite sum_zero.
  - rewrite count_filter_cons.
    rewrite (map_ext _ (fun a => (if Q a s then 1 else 0)
                                 + count (filter (Q a) rows)))
      by (intros a; apply count_filter_cons).
    rewrite sum_add, Hone by now left.
    rewrite IH; [reflexivity|].
    intros s' Hs'. apply Hone. now right.
Qed.

(** Among users of different primary keys, a user matches one of them or
    none. *)
Lemma one_user_matches (u : User) (users : list User) :
  NoDup (map user_pk users) ->
  Totals.sum (map (fun v => if user_eqb u v then 1 else 0) users)
  = if user_in u users then 1 else 0.
Proof.
  unfold user_in.
  induction users as [|v users IH]; cbn; [reflexivity|].
  intros Hnodup. apply NoDup_cons_iff in Hnodup as [Hnotin Hnodup].
  rewrite (IH Hnodup).
  destruct (user_eqb u v) eqn:Huv; cbn; [|reflexivity].
  destruct (existsb (user_eqb u) users) eqn:Hex; [|reflexivity].
  exfalso. apply Hnotin.
  apply existsb_exists in Hex as (w & Hw & Huw).
  unfold user_eqb in *. apply Z.eqb_eq in Huv, Huw.
  rewrite <- Huv, Huw. now apply in_map.
Qed.

(** X12. When the students on a grader's roster are different users, the
    grader's count of ungraded submissions is the sum, over the roster,
    of the course's count of ungraded submissions by that student. *)
Theorem not_graded_count_is_sum_over_roster (db : Database) (g : Grader) :
  NoDup (map user_pk (Scope.roster db g)) ->
  Models.Grader_not_graded_submissions_count db g
  = Totals.sum
      (map (Models.not_graded_submissions_count_by_student db
              (grader_course g))
           (Models.grader_students db g)).
Proof.
  intros Hnodup.
  unfold Models.Grader_not_graded_submissions_count,
    Models.Grader_not_graded_submissions_set,
    Models.not_graded_submissions_count_by_student.
  apply count_by_scope. intros s _.
  pose proof (one_user_matches (student s) (Scope.roster db g) Hnodup)
    as Hone.
  unfold Scope.roster in Hone. rewrite map_map in Hone.
  set (in_course := course_eqb (assignment_course (assignment s))
                              (grader_course g)).
  rewrite (map_ext _ (fun st =>
             if in_course && Bool.eqb (submitted s) true
                && Bool.eqb (graded s) false
             then (if user_eqb (student s) (student_user st) then 1 else 0)
             else 0))
    by (intros st;
        destruct in_course, (submitted s), (graded s),
          (user_eqb (student s) (student_user st)); reflexivity).
  rewrite sum_guard, Hone.
  destruct in_course, (submitted s), (graded s),
    (user_in (student s) (map student_user (Models.grader_students db g)));
    reflexivity.
Qed.

Lemma not_graded_count_is_sum_over_roster_sample :
  Models.Grader_not_graded_submissions_count Roster.course_db
    Sample.bob_grader
  = Totals.sum
      (map (Models.not_graded_submissions_count_by_student Roster.course_db
              (grader_course Sample.bob_grader))
           (Models.grader_students Roster.course_db Sample.bob_grader)).
Proof.
  apply (not_graded_count_is_sum_over_roster Roster.course_db
           Sample.bob_grader).
  cbn. repeat constructor. intros [].
Defined.

(** X23. A user name with student rows in more than one course is locked
    out of the staff views: the staff view of a submission, the unsubmit
    and the student page all raise [Http404] for it and write nothing,
    whatever the assignment or course asked for, because the student is
    looked up by user name alone. *)
Theorem student_of_two_courses_is_not_found {FormData : Type}
  (gv : FormData -> Submission -> bool)
  (gf : FormData -> Submission -> Submission)
  (courses : list Course) (request : Request FormData)
  (aid cid sid : string) (db : Database) (x y : Student) (l : list Student) :
  filter (fun s => String.eqb (username (student_user s)) sid) (students db)
  = x :: y :: l ->
  view_submission_as_staff gv gf request aid sid db = (inl Http404, db)
  /\ unsubmit_submission request aid sid db = (inl Http404, db)
  /\ Pages.view_student courses request cid sid db = (inl Http404, db).
Proof.
  intros Htwo.
  assert (Hstaff : exists e, lookup_as_staff request aid sid db = (inl e, db)).
  { unfold lookup_as_staff, bind, query, ret.
    destruct (objects_get _ (assignments db)) as [e|a]; [eauto|].
    unfold objects_get. rewrite Htwo. eauto. }
  destruct Hstaff as [e Hstaff].
  split; [|split].
  - unfold view_submission_as_staff, bind, try_except. now rewrite Hstaff.
  - unfold unsubmit_submission, bind, try_except. now rewrite Hstaff.
  - unfold Pages.view_student, Pages.Course_objects_get, bind, try_except,
      query, ret, raise.
    destruct (objects_get _ courses) as [e'|c]; [reflexivity|].
    unfold objects_get. now rewrite Htwo.
Qed.

Lemma student_of_two_courses_is_not_found_sample :
  view_submission_as_staff Sample.grader_valid Sample.grader_fields
    Sample.bob_posts "hw1" "alice" Sample.two_courses_db
  = (inl Http404, Sample.two_courses_db)
  /\ unsubmit_submission Sample.bob_posts "hw1" "alice" Sample.two_courses_db
     = (inl Http404, Sample.two_courses_db)
  /\ Pages.view_student Roster.course_table Sample.bob_posts "cs101" "alice"
       Sample.two_courses_db
     = (inl Http404, Sample.two_courses_db).
Proof.
  apply (student_of_two_courses_is_not_found Sample.grader_valid
           Sample.grader_fields Roster.course_table Sample.bob_posts
           "hw1" "cs101" "alice" Sample.two_courses_db
           Sample.alice_student Sample.alice_student_102 []).
  reflexivity.
Defined.

(** ** The pages that only read *)

(** X24. The index, the assignment list, the grader page and the grader
    list never write: whether they render or raise, the database is the
    one they were given (the submission views, the student page and the
    assignment page, for their part, create rows on a GET). *)
Theorem list_pages_only_read {FormData : Type} (courses : list Course)
  (request : Request FormData) (cid uid : string) (db : Database) :
  snd (Pages.index courses request db) = db
  /\ snd (Pages.view_assignment_list courses request cid db) = db
  /\ snd (Pages.view_grader courses request cid uid db) = db
  /\ snd (Pages.view_grader_list courses request cid db) = db.
Proof.
  unfold Pages.index, Pages.view_assignment_list, Pages.view_grader,
    Pages.view_grader_list, Pages.Course_objects_get, bind, try_except,
    query, ret, raise.
  repeat split;
    destruct (objects_get _ courses) as [e|c]; cbn; try reflexivity.
  now destruct (objects_get _ (graders db)) as [e|g].
Qed.
